(** * The catalog search gateway ([src/api/catalog.ts])

    A shallow embedding of the request handler exported by
    [src/api/catalog.ts] and of its three module-private helpers
    ([_cacheStorageHandler], [getProductsAttributesMetadata],
    [_outputFormatter]), followed by the properties of the request
    pipeline.

    The handler is asynchronous JavaScript: it is embedded as a pure
    function from a request (and the answers of the external collaborators)
    to the ordered list of externally visible effects it performs. *)

From Stdlib Require Import String Ascii List ZArith Bool Lia DecimalString.
Import ListNotations.
Open Scope string_scope.

(** ** Exceptions as [option]

    Inside the helpers the only exception that can arise is a [TypeError];
    [None] stands for it. *)

Definition bind {A B : Type} (m : option A) (f : A -> option B) : option B :=
  match m with
  | Some a => f a
  | None => None
  end.

Notation "x <- m ;; k" := (bind m (fun x => k))
  (at level 61, m at next level, right associativity).

Fixpoint map_opt {A B : Type} (f : A -> option B) (l : list A) : option (list B) :=
  match l with
  | [] => Some []
  | x :: t => y <- f x ;; r <- map_opt f t ;; Some (y :: r)
  end.

Fixpoint filter_opt {A : Type} (f : A -> option bool) (l : list A) : option (list A) :=
  match l with
  | [] => Some []
  | x :: t => b <- f x ;; r <- filter_opt f t ;; Some (if b then x :: r else r)
  end.

Fixpoint fold_opt {A B : Type} (f : B -> A -> option B) (l : list A) (acc : B) : option B :=
  match l with
  | [] => Some acc
  | x :: t => acc' <- f acc x ;; fold_opt f t acc'
  end.

(** ** JavaScript values

    Request bodies, backend responses and cached values are JSON documents.
    Numbers are restricted to the integers JavaScript holds exactly (the
    safe integers, see [printable]) and strings to ASCII (so that [length]
    counts characters the way JavaScript counts UTF-16 units).
    An object is its list of own properties in insertion order; the models
    assume its keys are distinct and not integer-like (JavaScript
    enumerates integer-like keys first). *)

Module JS.

#[warnings="-register-all"]
Inductive value : Type :=
| VUndef
| VNull
| VBool (b : bool)
| VNum (n : Z)
| VStr (s : string)
| VArr (items : list value)
| VObj (fields : list (string * value)).

(** [if (v)], [!v], [v && ...]. *)
Definition truthy (v : value) : bool :=
  match v with
  | VUndef | VNull => false
  | VBool b => b
  | VNum n => negb (n =? 0)%Z
  | VStr s => negb (s =? "")
  | VArr _ | VObj _ => true
  end.

(** [a || b]. *)
Definition or_else (a b : value) : value := if truthy a then a else b.

Fixpoint assoc {A : Type} (k : string) (l : list (string * A)) : option A :=
  match l with
  | [] => None
  | (k', x) :: t => if k' =? k then Some x else assoc k t
  end.

Definition remove_key {A : Type} (k : string) (l : list (string * A)) : list (string * A) :=
  filter (fun p => negb (fst p =? k)) l.

(** Assignment to a property keeps the position of an existing key and
    appends a new one. *)
Fixpoint update_key {A : Type} (k : string) (x : A) (l : list (string * A)) : list (string * A) :=
  match l with
  | [] => [(k, x)]
  | (k', y) :: t => if k' =? k then (k, x) :: t else (k', y) :: update_key k x t
  end.

Definition nat_str (n : nat) : string := NilZero.string_of_uint (Nat.to_uint n).

Definition Z_str (n : Z) : string := NilZero.string_of_int (Z.to_int n).

(** The element stored under the canonical index string [k], if any. *)
Fixpoint at_index {A : Type} (k : string) (i : nat) (l : list A) : option A :=
  match l with
  | [] => None
  | x :: t => if k =? nat_str i then Some x else at_index k (S i) t
  end.

Definition or_undef (o : option value) : value :=
  match o with
  | Some v => v
  | None => VUndef
  end.

(** [v.k] and [v[k]]: a TypeError on [null] and [undefined], [undefined]
    for a property that is not there. *)
Definition get (k : string) (v : value) : option value :=
  match v with
  | VUndef | VNull => None
  | VObj fs => Some (or_undef (assoc k fs))
  | VArr l =>
      Some (if k =? "length" then VNum (Z.of_nat (List.length l))
            else or_undef (at_index k 0 l))
  | VStr s =>
      Some (if k =? "length" then VNum (Z.of_nat (String.length s))
            else or_undef (at_index k 0
                   (map (fun c => VStr (String c "")) (list_ascii_of_string s))))
  | VBool _ | VNum _ => Some VUndef
  end.

(** [delete v.k], for the property names the handler deletes (none of
    them an index or [length]): it removes an own property of an object
    and leaves every other value as it is. *)
Definition delete (k : string) (v : value) : option value :=
  match v with
  | VUndef | VNull => None
  | VObj fs => Some (VObj (remove_key k fs))
  | _ => Some v
  end.

(** [v.k = x]. The handler only ever assigns to a value it has just found
    to carry a truthy named property, which makes it an object. *)
Definition set (k : string) (x : value) (v : value) : option value :=
  match v with
  | VObj fs => Some (VObj (update_key k x fs))
  | _ => None
  end.

(** [Object.keys(v)]. *)
Definition keys (v : value) : option (list string) :=
  match v with
  | VUndef | VNull => None
  | VObj fs => Some (map fst fs)
  | VArr l => Some (map nat_str (seq 0 (List.length l)))
  | VStr s => Some (map nat_str (seq 0 (String.length s)))
  | VBool _ | VNum _ => Some []
  end.

(** The receiver of [.map(...)]: anything but an array has no such method. *)
Definition as_array (v : value) : option (list value) :=
  match v with
  | VArr l => Some l
  | _ => None
  end.

Fixpoint join (sep : string) (l : list string) : string :=
  match l with
  | [] => ""
  | [x] => x
  | x :: t => x ++ sep ++ join sep t
  end.

(** String conversion, as performed by a template literal. A number is
    printed with all its digits, which is what JavaScript does for a safe
    integer, and an object as [[object Object]], which is what JavaScript
    does for an object that has no [toString] of its own: [to_string]
    stands for the conversion on [printable] values. *)
Fixpoint to_string (v : value) : string :=
  match v with
  | VUndef => "undefined"
  | VNull => "null"
  | VBool true => "true"
  | VBool false => "false"
  | VNum n => Z_str n
  | VStr s => s
  | VArr l =>
      join "," (map (fun x => match x with
                              | VUndef | VNull => ""
                              | _ => to_string x
                              end) l)
  | VObj _ => "[object Object]"
  end.



(** The equality used by [Set]: by value on primitives, by reference on
    arrays and objects (two parsed documents never share a reference). *)
Definition same_value_zero (a b : value) : bool :=
  match a, b with
  | VUndef, VUndef => true
  | VNull, VNull => true
  | VBool x, VBool y => Bool.eqb x y
  | VNum x, VNum y => (x =? y)%Z
  | VStr x, VStr y => (x =? y)
  | _, _ => false
  end.

Definition set_add (s : list value) (x : value) : list value :=
  if existsb (same_value_zero x) s then s else s ++ [x].

(** [[...new Set(l)]]: the elements of [l] in order of first occurrence. *)
Definition set_of (l : list value) : list value := fold_left set_add l [].

(** [c.toUpperCase()] on an ASCII character. *)
Definition upper (c : ascii) : ascii :=
  let n := nat_of_ascii c in
  if andb (97 <=? n)%nat (n <=? 122)%nat then ascii_of_nat (n - 32) else c.

(** [s[0].toUpperCase()]: [s[0]] is [undefined] on the empty string, and
    the method call on it is a TypeError. *)
Definition first_upper (s : string) : option string :=
  match s with
  | EmptyString => None
  | String c _ => Some (String (upper c) "")
  end.

(** [s.split(sep)] for a one-character separator. *)
Fixpoint split (sep : ascii) (s : string) : list string :=
  match s with
  | EmptyString => [""]
  | String c t =>
      if Ascii.eqb c sep then "" :: split sep t
      else match split sep t with
           | [] => [String c ""]
           | h :: r => String c h :: r
           end
  end.

(** [s.indexOf(p) === 0] *)
Fixpoint starts_with (p s : string) : bool :=
  match p, s with
  | EmptyString, _ => true
  | String a p', String b s' => andb (Ascii.eqb a b) (starts_with p' s')
  | String _ _, EmptyString => false
  end.

Definition ends_with (suf s : string) : bool :=
  andb (String.length suf <=? String.length s)%nat
       (substring (String.length s - String.length suf) (String.length suf) s =? suf).

Definition drop (n : nat) (s : string) : string :=
  substring n (String.length s - n) s.

Definition drop_end (n : nat) (s : string) : string :=
  substring 0 (String.length s - n) s.

End JS.

Import JS.

(** ** Helpers of [src/api/catalog.ts] *)

(** The tag list built at lines 145-154 from the entity type and the hit
    list [_resBody.hits.hits] of the backend response, when the output
    cache is on ([outputCache]); the empty list otherwise. *)
Definition tagsArray (outputCache : bool) (entityType : string) (hits : value)
  : option (list string) :=
  if outputCache then
    tagPrefix <- first_upper entityType ;;
    items <- as_array hits ;;
    ids <- map_opt (fun item => src <- get "_source" item ;; get "id" src) items ;;
    Some (entityType ::
          flat_map (fun id => if truthy id then [tagPrefix ++ to_string id] else []) ids)
  else Some [].

(** [key.replace(/^(agg_terms_|agg_range_)|(_options)$/g, '')]: the first
    alternative can only match at the start, the second only at the end of
    what the first has left. *)
Definition attributeCode (key : string) : string :=
  let rest := if orb (starts_with "agg_terms_" key) (starts_with "agg_range_" key)
              then drop 10 key else key in
  if ends_with "_options" rest then drop_end 8 rest else rest.

(** [body.aggregations[key].buckets] *)
Definition buckets_of (aggregations : value) (key : string) : option value :=
  agg <- get key aggregations ;; get "buckets" agg.

(** The names a plain object inherits from [Object.prototype]: a property
    read under one of them finds a function (the prototype itself under
    [__proto__]) unless the object has a property of its own by that name. *)
Definition inherited (k : string) : bool :=
  existsb (String.eqb k)
    ["constructor"; "__defineGetter__"; "__defineSetter__"; "hasOwnProperty";
     "__lookupGetter__"; "__lookupSetter__"; "isPrototypeOf"; "propertyIsEnumerable";
     "toString"; "valueOf"; "__proto__"; "toLocaleString"].

(** One step of the [reduce] of lines 32-45. The accumulator [acc] is the
    list of the own properties of a plain object. [acc[attributeCode]] is
    the own property if there is one; otherwise it is [undefined], and the
    code starts from the empty list, unless the name is inherited: then it
    is a truthy value that is not iterable, and spreading it at line 42
    throws. *)
Definition collect (aggregations : value) (acc : list (string * list value)) (key : string)
  : option (list (string * list value)) :=
  let code := attributeCode key in
  b <- buckets_of aggregations key ;;
  bs <- as_array b ;;
  bucketsIds <- map_opt (get "key") bs ;;
  match assoc code acc with
  | Some l => Some (update_key code (set_of (l ++ bucketsIds)) acc)
  | None =>
      if inherited code then None
      else Some (update_key code (set_of ([] ++ bucketsIds)) acc)
  end.

(** Lines 30-45 of [getProductsAttributesMetadata]: the argument built for
    [AttributeService.list]. *)
Definition attributeListParam (body : value) : option (list (string * list value)) :=
  aggregations <- get "aggregations" body ;;
  ks <- keys aggregations ;;
  kept <- filter_opt (fun key => b <- buckets_of aggregations key ;;
                                 len <- get "length" b ;;
                                 Some (truthy len)) ks ;;
  fold_opt (collect aggregations) kept [].

(** [Object.assign(source, { _score: score })]. On an object it sets the
    property and returns the object; on [null] and [undefined] it throws;
    any other target comes back as a value that serialises like the
    target itself. *)
Definition assign_score (source score : value) : option value :=
  match source with
  | VUndef | VNull => None
  | VObj fs => Some (VObj (update_key "_score" score fs))
  | _ => Some source
  end.

(** Lines 53-67. The deletions and assignments act on the response object
    itself; the value returned is that object after them. *)
Definition _outputFormatter (responseBody : value) (format : string) : option value :=
  if format =? "compact" then
    b <- delete "took" responseBody ;;
    b <- delete "timed_out" b ;;
    b <- delete "_shards" b ;;
    hits <- get "hits" b ;;
    if truthy hits then
      hits <- delete "max_score" hits ;;
      total <- get "total" hits ;;
      b <- set "total" total b ;;
      hh <- get "hits" hits ;;
      items <- as_array hh ;;
      flat <- map_opt (fun hit => src <- get "_source" hit ;;
                                  score <- get "_score" hit ;;
                                  assign_score src score) items ;;
      set "hits" (VArr flat) b
    else Some b
  else Some responseBody.

(** ** Requests, configuration and external collaborators *)

(** [req]: the fields of the incoming request the handler reads. A query
    parameter is absent or a string. *)
Record Request : Type := {
  method : string;
  url : string;
  body : value;
  query_request : option string;
  query_request_format : option string;
  query_response_format : option string
}.

(** [config]: the settings the handler reads. *)
Record Config : Type := {
  useOutputCache : bool;          (* config.server.useOutputCache *)
  indices : list string;          (* config.elasticsearch.indices *)
  es_user : value;                (* config.elasticsearch.user *)
  es_password : value;            (* config.elasticsearch.password *)
  authHashSecret : value;
  objHashSecret : value
}.

(** The outcome of an awaited promise. *)
Inductive promise (A : Type) : Type :=
| Resolves (a : A)
| Rejects.
Arguments Resolves {A} a.
Arguments Rejects {A}.

(** The options object handed to [request(...)]. *)
Record BackendRequest : Type := {
  uri : string;
  req_method : string;
  req_body : value;
  auth : value
}.

(** What becomes of a [cache.set]: the write is stored, or its promise is
    rejected. A rejection is delivered some time after the call; when an
    attribute lookup is pending at that time, [before_answer] tells whether
    the rejection is delivered before the lookup is answered. *)
Inductive write_result : Type :=
| Written
| WriteFails (before_answer : bool).

(** [cache] of [../lib/cache-instance]: what [get] answers for a key and
    what becomes of a [set]. *)
Record CacheClient : Type := {
  cache_get : string -> promise value;
  cache_set : string -> value -> list string -> write_result
}.

(** [resultProcessor.process(items, groupId)] *)
Definition Processor : Type := value -> value -> promise value.

(** Everything the module imports. A function that can throw returns an
    [option]; one that returns a promise returns a [promise]. *)
Record Collaborators : Type := {
  cache : option CacheClient;
  sha3_224 : string -> string;
  (* the text a template literal makes of JSON.stringify(v) *)
  JSON_stringify : value -> string;
  (* JSON.parse(decodeURIComponent(s)) *)
  JSON_parse_uri : string -> option value;
  (* elasticsearch.buildQueryBodyFromSearchQuery({..., new SearchQuery(body)}) *)
  buildQueryBody : value -> promise value;
  adjustBackendProxyUrl : Request -> string -> string -> string;
  (* jwt.decode(token, secret) *)
  jwt_decode : value -> value -> option value;
  (* the body the backend callback receives; [VUndef] when the transport failed *)
  backend : BackendRequest -> value;
  (* factory.getAdapter(entityType, indexName, req, res) *)
  getAdapter : string -> string -> option Processor;
  AttributeService_list : list (string * list value) -> string -> promise value;
  transformToMetadata : value -> value
}.

(** ** Effects *)

Inductive event : Type :=
| CacheGet (key : string)                       (* cache.get(key) *)
| SetHeader (name val : string)                 (* res.setHeader *)
| ConsoleLog
| ConsoleError
| BackendCall (r : BackendRequest)              (* request({...}, callback) *)
| Process (adapter : string) (items groupId : value)
| CacheSet (key : string) (val : value) (tags : list string)
| AttributeList (param : list (string * list value)) (indexName : string)
| Json (body : value).                          (* res.json(body) *)

Inductive error : Type :=
| Error (message : string)    (* throw new Error(message) *)
| TypeError
| External.                   (* thrown by JSON.parse, jwt.decode or the query builder *)

(** How a run ends: with nothing left to do, with the handler's own promise
    rejected, or with an exception escaping the backend callback. *)
Inductive ending : Type :=
| Done
| Thrown (e : error)
| Uncaught.

Definition result (A : Type) : Type := (error + A)%type.

Definition bind_result {A B : Type} (m : result A) (f : A -> result B) : result B :=
  match m with
  | inr a => f a
  | inl e => inl e
  end.

Notation "x <-- m ;; k" := (bind_result m (fun x => k))
  (at level 61, m at next level, right associativity).

Definition or_throw {A : Type} (e : error) (o : option A) : result A :=
  match o with
  | Some a => inr a
  | None => inl e
  end.

Definition await {A : Type} (p : promise A) : result A :=
  match p with
  | Resolves a => inr a
  | Rejects => inl External
  end.

(** What the handler has computed when it reaches line 135. *)
Record Prepared : Type := {
  indexName : string;
  entityType : string;
  responseFormat : string;
  requestBody : value;
  groupId : value;
  reqAuth : value;
  elasticBackendUrl : string;
  reqHash : string
}.

Definition present (q : option string) : bool :=
  match q with
  | Some s => negb (s =? "")
  | None => false
  end.

(** [x > 10] for the [length] of a token: a number is compared, anything
    else that a JSON token can have there is not a number above ten
    (a [length] property holding a numeric string is not modelled). *)
Definition gt10 (x : value) : bool :=
  match x with
  | VNum n => (10 <? n)%Z
  | _ => false
  end.

(** [a && a.k], for a property name [k]. *)
Definition and_prop (a : value) (k : string) : value :=
  if truthy a then or_undef (get k a) else a.

(** The events [main] that follow a cache write, with the log line of the
    write's [catch] callback when the write fails. The callback runs after
    the synchronous code that follows the call of [cache.set]: after the
    response when [main] responds at once, after the call of the attribute
    service when [main] starts with a lookup. With a lookup pending, the
    log line comes before what follows the lookup's answer or after it, as
    the cache client has it. (A log line of [main] itself is written by a
    callback too; the two log lines are the same event, in either order.) *)
Definition settle_write (w : write_result) (main : list event) : list event :=
  match w with
  | Written => main
  | WriteFails before_answer =>
      match main with
      | AttributeList param index :: later =>
          if before_answer
          then AttributeList param index :: ConsoleError :: later
          else AttributeList param index :: (later ++ [ConsoleError])
      | _ => main ++ [ConsoleError]
      end
  end.

(** ** The handler *)

Section Handler.

Variable deps : Collaborators.
Variable config : Config.

(** [config.server.useOutputCache && cache] *)
Definition outputCache : option CacheClient :=
  if useOutputCache config then cache deps else None.

Definition outputCacheOn : bool :=
  match outputCache with
  | Some _ => true
  | None => false
  end.

(** Lines 11-21: the call of [cache.set]. The write is not awaited.
    [result] is the shared response object, recorded as it is when [set]
    is called. The [catch] callback of lines 17-19 is detached from the
    caller: see [write_outcome] and [settle_write]. *)
Definition _cacheStorageHandler (result : value) (hash : string) (tags : list string)
  : list event :=
  match outputCache with
  | Some c => [CacheSet ("api:" ++ hash) result tags]
  | None => []
  end.

(** What becomes of the write that [_cacheStorageHandler] has started. *)
Definition write_outcome (result : value) (hash : string) (tags : list string)
  : write_result :=
  match outputCache with
  | Some c => cache_set c ("api:" ++ hash) result tags
  | None => Written
  end.

(** Lines 29-51: an async function, so that a TypeError while the argument
    is built rejects the returned promise like a failed lookup does. *)
Definition getProductsAttributesMetadata (body : value) (indexName : string)
  : list event * promise value :=
  match attributeListParam body with
  | None => ([], Rejects)
  | Some param =>
      ([AttributeList param indexName], AttributeService_list deps param indexName)
  end.

(** Lines 79-84: the body a request starts from. *)
Definition parse_body (req : Request) : result value :=
  if andb (method req =? "GET") (present (query_request req))
  then match query_request req with
       | Some s => or_throw External (JSON_parse_uri deps s)
       | None => inr (body req)
       end
  else inr (body req).

(** Lines 86-88: translation of a search query into the backend's query. *)
Definition translate (req : Request) (requestBody : value) : result value :=
  match query_request_format req with
  | Some "search-query" => await (buildQueryBody deps requestBody)
  | _ => inr requestBody
  end.

(** Lines 124-132: credentials are passed on only if configured. *)
Definition auth_of_config : value :=
  if truthy (or_else (es_user config) (es_password config))
  then VObj [("user", es_user config); ("pass", es_password config)]
  else VNull.

(** Lines 111-119: the group identifier, from the token or from the body. *)
Definition group_of (requestBody : value) : result value :=
  userToken <-- or_throw TypeError (get "groupToken" requestBody) ;;
  if truthy userToken && gt10 (or_undef (get "length" userToken))
  then
    decodeToken <-- or_throw External
      (jwt_decode deps userToken
         (if truthy (authHashSecret config)
          then authHashSecret config else objHashSecret config)) ;;
    group_id <-- or_throw TypeError (get "group_id" decodeToken) ;;
    inr (or_else group_id VNull)
  else
    g <-- or_throw TypeError (get "groupId" requestBody) ;;
    inr (if truthy g then or_else g VNull else VNull).

(** Lines 72-134: validation and normalisation. *)
Definition prepare (req : Request) : result Prepared :=
  if negb (orb (method req =? "GET") (orb (method req =? "POST") (method req =? "OPTIONS")))
  then inl (Error ("ERROR: " ++ method req ++ " request method is not supported."))
  else
    requestBody <-- parse_body req ;;
    requestBody <-- translate req requestBody ;;
    let responseFormat :=
      match query_response_format req with
      | Some f => if present (Some f) then f else "standard"
      | None => "standard"
      end in
    let urlSegments := split "/" (url req) in
    if (List.length urlSegments <? 2)%nat
    then inl (Error "No index name given in the URL. Please do use following URL format: /api/catalog/<index_name>/<entity_type>_search")
    else
      let indexName := nth 1 urlSegments "" in
      let entityType := if (2 <? List.length urlSegments)%nat
                        then nth 2 urlSegments "" else "" in
      if negb (existsb (String.eqb indexName) (indices config))
      then inl (Error "Invalid / inaccessible index name given in the URL. Please do use following URL format: /api/catalog/<index_name>/_search")
      else if negb (starts_with "_search" (last urlSegments ""))
      then inl (Error "Please do use following URL format: /api/catalog/<index_name>/_search")
      else
        let elasticBackendUrl := adjustBackendProxyUrl deps req indexName entityType in
        groupId <-- group_of requestBody ;;
        requestBody <-- or_throw TypeError (delete "groupToken" requestBody) ;;
        requestBody <-- or_throw TypeError (delete "groupId" requestBody) ;;
        inr {| indexName := indexName;
               entityType := entityType;
               responseFormat := responseFormat;
               requestBody := requestBody;
               groupId := groupId;
               reqAuth := auth_of_config;
               elasticBackendUrl := elasticBackendUrl;
               reqHash := sha3_224 deps (JSON_stringify deps requestBody ++ url req) |}.

(** [_resBody.hits.hits = result] *)
Definition set_hits (resBody result : value) : option value :=
  hits <- get "hits" resBody ;;
  hits <- set "hits" result hits ;;
  set "hits" hits resBody.

(** [res.json(_outputFormatter(_resBody, responseFormat))] inside a promise
    chain whose [catch] logs. *)
Definition respond (p : Prepared) (resBody : value) : list event :=
  match _outputFormatter resBody (responseFormat p) with
  | Some out => [Json out]
  | None => [ConsoleError]
  end.

(** Lines 163-166, followed by line 167. *)
Definition enrich_then_respond (p : Prepared) (resBody : value) : list event :=
  match get "aggregations" resBody with
  | None => [ConsoleError]
  | Some aggregations =>
      if truthy aggregations then
        let (evs, looked_up) := getProductsAttributesMetadata resBody (indexName p) in
        evs ++
        match looked_up with
        | Rejects => [ConsoleError]
        | Resolves attributesMetadata =>
            match
              items <- as_array attributesMetadata ;;
              set "attribute_metadata" (VArr (map (transformToMetadata deps) items)) resBody
            with
            | Some resBody => respond p resBody
            | None => [ConsoleError]
            end
        end
      else respond p resBody
  end.

(** The body of [process(...).then(...)] with its [catch], lines 160-170
    ([enrich] true) and 172-178 ([enrich] false): the cache write is
    started, then [main] runs, and the log line of a write that fails
    falls where [settle_write] puts it. *)
Definition after_process (p : Prepared) (resBody : value) (tags : list string)
    (enrich : bool) (processed : promise value) : list event :=
  match processed with
  | Rejects => [ConsoleError]
  | Resolves result =>
      match set_hits resBody result with
      | None => [ConsoleError]
      | Some resBody =>
          _cacheStorageHandler resBody (reqHash p) tags ++
          settle_write (write_outcome resBody (reqHash p) tags)
            (if enrich then enrich_then_respond p resBody else respond p resBody)
      end
  end.

(** Lines 156-158: the processor registered for the entity type, or else
    the one registered as [default]. *)
Definition resultProcessor (p : Prepared) : option (string * Processor) :=
  match getAdapter deps (entityType p) (indexName p) with
  | Some proc => Some (entityType p, proc)
  | None =>
      match getAdapter deps "default" (indexName p) with
      | Some proc => Some ("default", proc)
      | None => None
      end
  end.

(** Lines 136-142: the options of the backend request. *)
Definition backendCall (req : Request) (p : Prepared) : BackendRequest :=
  {| uri := elasticBackendUrl p;
     req_method := method req;
     req_body := requestBody p;
     auth := reqAuth p |}.

(** [_resBody && _resBody.hits && _resBody.hits.hits] *)
Definition hits_of (resBody : value) : value :=
  and_prop (and_prop resBody "hits") "hits".

(** Lines 135-184: the backend request and its callback. What the callback
    throws before it has started a promise chain is caught by nobody. *)
Definition dynamicRequestHandler (req : Request) (p : Prepared) : list event * ending :=
  let call := backendCall req p in
  let resBody := backend deps call in
  let items := hits_of resBody in
  if truthy items then
    match tagsArray outputCacheOn (entityType p) items with
    | None => ([BackendCall call], Uncaught)
    | Some tags =>
        match resultProcessor p with
        | None => ([BackendCall call], Uncaught)
        | Some (adapter, process) =>
            if entityType p =? "product" then
              (BackendCall call :: Process adapter items (groupId p) ::
                 after_process p resBody tags true (process items (groupId p)),
               Done)
            else
              (BackendCall call :: Process adapter items VUndef ::
                 after_process p resBody tags false (process items VUndef),
               Done)
        end
    end
  else ([BackendCall call; Json resBody], Done).

(** [output !== null] *)
Definition not_null (v : value) : bool :=
  match v with
  | VNull => false
  | _ => true
  end.

(** The exported handler, lines 69-203. *)
Definition handler (req : Request) : list event * ending :=
  match prepare req with
  | inl e => ([], Thrown e)
  | inr p =>
      match outputCache with
      | Some c =>
          match cache_get c ("api:" ++ reqHash p) with
          | Resolves output =>
              if not_null output then
                ([CacheGet ("api:" ++ reqHash p); SetHeader "X-VS-Cache" "Hit";
                  Json output; ConsoleLog], Done)
              else
                let (evs, e) := dynamicRequestHandler req p in
                (CacheGet ("api:" ++ reqHash p) :: SetHeader "X-VS-Cache" "Miss" ::
                   ConsoleLog :: evs, e)
          | Rejects => ([CacheGet ("api:" ++ reqHash p); ConsoleError], Done)
          end
      | None => dynamicRequestHandler req p
      end
  end.

End Handler.


(** ** Observations on a run *)

Definition is_backend_call (e : event) : bool :=
  match e with BackendCall _ => true | _ => false end.

Definition is_cache_access (e : event) : bool :=
  match e with CacheGet _ | CacheSet _ _ _ => true | _ => false end.

Definition is_response (e : event) : bool :=
  match e with Json _ => true | _ => false end.

Definition is_lookup (e : event) : bool :=
  match e with AttributeList _ _ => true | _ => false end.

Definition count (f : event -> bool) (t : list event) : nat :=
  List.length (filter f t).

(** ** Fixtures: stand-ins for the collaborators in concrete runs *)

Module Fixture.

Definition quote : string := String (ascii_of_nat 34) EmptyString.

(** A serialiser that is enough to tell apart the bodies used below. *)
Fixpoint show (v : value) : string :=
  match v with
  | VUndef => "undefined"
  | VNull => "null"
  | VBool true => "true"
  | VBool false => "false"
  | VNum n => Z_str n
  | VStr s => quote ++ s ++ quote
  | VArr l => "[" ++ join "," (map show l) ++ "]"
  | VObj fs =>
      "{" ++ join "," (map (fun p => quote ++ fst p ++ quote ++ ":" ++ show (snd p)) fs) ++ "}"
  end.

(** A stand-in for the digest: the text itself. *)
Definition digest (s : string) : string := s.

(** A processor that returns the hits as they are. *)
Definition keep : Processor := fun items _ => Resolves items.


(** A cache that holds nothing, and one whose reads fail. *)
Definition empty_cache : CacheClient :=
  {| cache_get := fun _ => Resolves VNull; cache_set := fun _ _ _ => Written |}.

Definition broken_cache : CacheClient :=
  {| cache_get := fun _ => Rejects; cache_set := fun _ _ _ => Written |}.


Definition deps (c : option CacheClient) (answer : value) (proc : Processor)
    (lookup : promise value) : Collaborators :=
  {| cache := c;
     sha3_224 := digest;
     JSON_stringify := show;
     JSON_parse_uri := fun _ => None;
     buildQueryBody := fun b => Resolves b;
     adjustBackendProxyUrl := fun _ index entity =>
       "http://localhost:9200/" ++ index ++ "/" ++ entity ++ "/_search";
     jwt_decode := fun _ _ => Some (VObj [("group_id", VNum 2)]);
     backend := fun _ => answer;
     getAdapter := fun entity _ =>
       if orb (entity =? "product") (entity =? "default") then Some proc else None;
     AttributeService_list := fun _ _ => lookup;
     transformToMetadata := fun v => v |}.

Definition config (on : bool) : Config :=
  {| useOutputCache := on;
     indices := ["myindex"];
     es_user := VUndef;
     es_password := VUndef;
     authHashSecret := VUndef;
     objHashSecret := VStr "secret" |}.

(** A backend answer with one hit, of identifier ["7"], and one aggregation. *)
Definition answer : value :=
  VObj [("took", VNum 3);
        ("hits", VObj [("total", VNum 1);
                       ("hits", VArr [VObj [("_score", VNum 1);
                                            ("_source", VObj [("id", VStr "7")])]])]);
        ("aggregations",
         VObj [("agg_terms_color",
                VObj [("buckets", VArr [VObj [("key", VStr "red")]])])])].

Definition post (path : string) (b : value) : Request :=
  {| method := "POST"; url := path; body := b;
     query_request := None; query_request_format := None;
     query_response_format := None |}.

Definition get_compact (path : string) (b : value) : Request :=
  {| method := "GET"; url := path; body := b;
     query_request := None; query_request_format := None;
     query_response_format := Some "compact" |}.

Definition product_path : string := "/myindex/product/_search".

(** What [prepare] makes of a POST to [product_path] with an empty body. *)
Definition product_prepared : Prepared :=
  {| indexName := "myindex";
     entityType := "product";
     responseFormat := "standard";
     requestBody := VObj [];
     groupId := VNull;
     reqAuth := VNull;
     elasticBackendUrl := "http://localhost:9200/myindex/product/_search";
     reqHash := "{}/myindex/product/_search" |}.

End Fixture.

(** * Properties *)

(** ** Objects as association lists *)

Section Assoc.

Context {A : Type}.
Implicit Types (l : list (string * A)) (k : string).

Lemma assoc_remove_same k l : assoc k (remove_key k l) = None.
Proof.
  induction l as [|[k' x] l IH]; simpl; auto.
  destruct (String.eqb_spec k' k); simpl; auto.
  destruct (String.eqb_spec k' k); congruence.
Qed.

Lemma assoc_remove_other k k' l : k <> k' -> assoc k (remove_key k' l) = assoc k l.
Proof.
  intros Hne. induction l as [|[k0 x] l IH]; simpl; auto.
  destruct (String.eqb_spec k0 k'); simpl.
  - destruct (String.eqb_spec k0 k); congruence.
  - rewrite IH. reflexivity.
Qed.

Lemma assoc_update_same k x l : assoc k (update_key k x l) = Some x.
Proof.
  induction l as [|[k' y] l IH]; simpl.
  - now rewrite String.eqb_refl.
  - destruct (String.eqb_spec k' k); simpl.
    + now rewrite String.eqb_refl.
    + destruct (String.eqb_spec k' k); congruence.
Qed.

Lemma assoc_update_other k k' x l : k <> k' -> assoc k (update_key k' x l) = assoc k l.
Proof.
  intros Hne. induction l as [|[k0 y] l IH]; simpl.
  - destruct (String.eqb_spec k' k); congruence.
  - destruct (String.eqb_spec k0 k'); simpl.
    + subst. destruct (String.eqb_spec k' k); congruence.
    + now rewrite IH.
Qed.

Lemma assoc_In k x l : assoc k l = Some x -> In (k, x) l.
Proof.
  induction l as [|[k' y] l IH]; simpl; [discriminate|].
  destruct (String.eqb_spec k' k); intros H.
  - left. congruence.
  - right. auto.
Qed.


Lemma In_assoc k x l : NoDup (map fst l) -> In (k, x) l -> assoc k l = Some x.
Proof.
  induction l as [|[k' y] l IH]; simpl; [tauto|].
  intros Hnd [Heq | Hin]; inversion Hnd; subst.
  - inversion Heq; subst. now rewrite String.eqb_refl.
  - destruct (String.eqb_spec k' k); auto.
    subst. exfalso. apply H1. apply (in_map fst) in Hin. exact Hin.
Qed.



End Assoc.

(** An array has no property of a non-numeric name other than [length]. *)
Lemma at_index_max_score {A : Type} (l : list A) (i : nat) :
  at_index "max_score" i l = None.
Proof.
  revert i. induction l as [|x l IH]; intros i; simpl; auto.
  rewrite IH.
  unfold nat_str, NilZero.string_of_uint.
  destruct (Nat.to_uint i); reflexivity.
Qed.

Lemma map_opt_Forall2 {A B : Type} (f : A -> option B) (l : list A) (r : list B) :
  Forall2 (fun a b => f a = Some b) l r -> map_opt f l = Some r.
Proof.
  induction 1 as [|a b l r Hab _ IH]; simpl; auto.
  rewrite Hab. simpl. rewrite IH. reflexivity.
Qed.

Lemma map_opt_Some_Forall2 {A B : Type} (f : A -> option B) (l : list A) (r : list B) :
  map_opt f l = Some r -> Forall2 (fun a b => f a = Some b) l r.
Proof.
  revert r. induction l as [|a l IH]; simpl; intros r H.
  - inversion H. constructor.
  - destruct (f a) eqn:Ha; simpl in H; [|discriminate].
    destruct (map_opt f l) eqn:Hl; simpl in H; [|discriminate].
    inversion H; subst. constructor; auto.
Qed.

(** ** Response formatting *)

(** A hit carrying the source object [fst v] and the relevance score [snd v]. *)
Definition hit_with (hit : value) (v : list (string * value) * value) : Prop :=
  get "_source" hit = Some (VObj (fst v)) /\ get "_score" hit = Some (snd v).

Definition scored (v : list (string * value) * value) : value :=
  VObj (update_key "_score" (snd v) (fst v)).

Lemma flatten_hits (hitlist : list value) (views : list (list (string * value) * value)) :
  Forall2 hit_with hitlist views ->
  map_opt (fun hit => src <- get "_source" hit ;;
                      score <- get "_score" hit ;;
                      assign_score src score) hitlist
  = Some (map scored views).
Proof.
  intros H. apply map_opt_Forall2.
  induction H as [|hit v hitlist views [Hsrc Hscore] _ IH]; simpl; constructor; auto.
  rewrite Hsrc. simpl. rewrite Hscore. reflexivity.
Qed.

(** Whatever [compact] formatting returns for an object is an object
    without [took], [timed_out] and [_shards]. *)
Lemma compact_strips_transport_fields (fields : list (string * value)) (formatted : value) :
  _outputFormatter (VObj fields) "compact" = Some formatted ->
  exists out, formatted = VObj out /\
              assoc "took" out = None /\
              assoc "timed_out" out = None /\
              assoc "_shards" out = None.
Proof.
  unfold _outputFormatter. simpl.
  set (stripped := remove_key "_shards" (remove_key "timed_out" (remove_key "took" fields))).
  assert (Hs : assoc "took" stripped = None /\ assoc "timed_out" stripped = None /\
               assoc "_shards" stripped = None).
  { unfold stripped. repeat split.
    - rewrite !assoc_remove_other by discriminate. apply assoc_remove_same.
    - rewrite assoc_remove_other by discriminate. apply assoc_remove_same.
    - apply assoc_remove_same. }
  destruct (truthy (or_undef (assoc "hits" stripped))).
  - destruct (delete "max_score" _) as [h|]; simpl; [|discriminate].
    destruct (get "total" h) as [total|]; simpl; [|discriminate].
    destruct (get "hits" h) as [hh|]; simpl; [|discriminate].
    destruct (as_array hh) as [items|]; simpl; [|discriminate].
    destruct (map_opt _ items) as [flat|]; simpl; [|discriminate].
    intros H. inversion H. eexists. split; [reflexivity|].
    rewrite !assoc_update_other by discriminate. exact Hs.
  - intros H. inversion H. exists stripped. split; [reflexivity | exact Hs].
Qed.

(** C9. Formatting as [standard] returns every response body unchanged.
    Whatever formatting as [compact] returns for a response object has no
    [took], [timed_out] and [_shards]. For a response whose [hits] object
    holds a hit list, it returns a body whose [hits] no longer has a
    [max_score], whose [total] is the [hits.total] of before, and whose
    [hits] is the list of the source objects, each with its hit's
    [_score] set on it. *)
Theorem outputFormatter_standard_compact
    (body : value) (fields hfields : list (string * value))
    (hitlist : list value) (views : list (list (string * value) * value))
    (Hhits : assoc "hits" fields = Some (VObj hfields))
    (Hlist : assoc "hits" hfields = Some (VArr hitlist))
    (Hviews : Forall2 hit_with hitlist views) :
  _outputFormatter body "standard" = Some body /\
  (forall (any : list (string * value)) (formatted : value),
     _outputFormatter (VObj any) "compact" = Some formatted ->
     exists out, formatted = VObj out /\
                 assoc "took" out = None /\
                 assoc "timed_out" out = None /\
                 assoc "_shards" out = None) /\
  exists out,
    _outputFormatter (VObj fields) "compact" = Some (VObj out) /\
    assoc "took" out = None /\
    assoc "timed_out" out = None /\
    assoc "_shards" out = None /\
    (hits <- get "hits" (VObj out) ;; get "max_score" hits) = Some VUndef /\
    assoc "total" out = Some (or_undef (assoc "total" hfields)) /\
    assoc "hits" out = Some (VArr (map scored views)).
Proof.
  split; [reflexivity|]. split; [exact compact_strips_transport_fields|].
  set (stripped := remove_key "_shards" (remove_key "timed_out" (remove_key "took" fields))).
  assert (Hs : assoc "hits" stripped = Some (VObj hfields)).
  { unfold stripped. rewrite !assoc_remove_other by discriminate. exact Hhits. }
  set (total := or_undef (assoc "total" (remove_key "max_score" hfields))).
  exists (update_key "hits" (VArr (map scored views)) (update_key "total" total stripped)).
  split.
  - unfold _outputFormatter. simpl. fold stripped. rewrite Hs. simpl.
    rewrite assoc_remove_other by discriminate. rewrite Hlist. simpl.
    rewrite (flatten_hits _ _ Hviews). simpl. reflexivity.
  - repeat split.
    + rewrite !assoc_update_other by discriminate. unfold stripped.
      rewrite !assoc_remove_other by discriminate. apply assoc_remove_same.
    + rewrite !assoc_update_other by discriminate. unfold stripped.
      rewrite assoc_remove_other by discriminate. apply assoc_remove_same.
    + rewrite !assoc_update_other by discriminate. apply assoc_remove_same.
    + simpl. rewrite assoc_update_same. simpl. now rewrite at_index_max_score.
    + rewrite assoc_update_other by discriminate. rewrite assoc_update_same.
      unfold total. now rewrite assoc_remove_other by discriminate.
    + apply assoc_update_same.
Qed.

Definition sample_response : list (string * value) :=
  [("took", VNum 3); ("timed_out", VBool false); ("_shards", VObj [("total", VNum 5)]);
   ("hits", VObj [("total", VNum 2); ("max_score", VNum 1);
                  ("hits", VArr [VObj [("_id", VStr "a"); ("_score", VNum 4);
                                       ("_source", VObj [("id", VNum 7)])];
                                 VObj [("_id", VStr "b"); ("_score", VNum 2);
                                       ("_source", VObj [("id", VNum 9)])]])])].

Lemma outputFormatter_standard_compact_witness :
  _outputFormatter (VObj sample_response) "standard" = Some (VObj sample_response) /\
  (forall (any : list (string * value)) (formatted : value),
     _outputFormatter (VObj any) "compact" = Some formatted ->
     exists out, formatted = VObj out /\
                 assoc "took" out = None /\
                 assoc "timed_out" out = None /\
                 assoc "_shards" out = None) /\
  exists out,
    _outputFormatter (VObj sample_response) "compact" = Some (VObj out) /\
    assoc "took" out = None /\
    assoc "timed_out" out = None /\
    assoc "_shards" out = None /\
    (hits <- get "hits" (VObj out) ;; get "max_score" hits) = Some VUndef /\
    assoc "total" out = Some (VNum 2) /\
    assoc "hits" out = Some (VArr [VObj [("id", VNum 7); ("_score", VNum 4)];
                                   VObj [("id", VNum 9); ("_score", VNum 2)]]).
Proof.
  apply (outputFormatter_standard_compact (VObj sample_response) sample_response
           [("total", VNum 2); ("max_score", VNum 1);
            ("hits", VArr [VObj [("_id", VStr "a"); ("_score", VNum 4);
                                 ("_source", VObj [("id", VNum 7)])];
                           VObj [("_id", VStr "b"); ("_score", VNum 2);
                                 ("_source", VObj [("id", VNum 9)])]])]
           [VObj [("_id", VStr "a"); ("_score", VNum 4); ("_source", VObj [("id", VNum 7)])];
            VObj [("_id", VStr "b"); ("_score", VNum 2); ("_source", VObj [("id", VNum 9)])]]
           [([("id", VNum 7)], VNum 4); ([("id", VNum 9)], VNum 2)]).
  - reflexivity.
  - reflexivity.
  - repeat constructor.
Defined.

(** ** Tags *)





(** ** Attribute enrichment *)











(** *** Attribute codes *)










(** *** The merge of bucket identifiers *)

(** The aggregation [agg] has the bucket list whose identifiers are [ks]. *)
Definition bucket_keys (agg : value) (ks : list value) : Prop :=
  exists bs, get "buckets" agg = Some (VArr bs) /\ map_opt (get "key") bs = Some ks.

(** [aggs] lists, for each aggregation of the object [fields] in order, its
    name and the identifiers of its buckets. *)
Definition aggregations_view (fields : list (string * value))
    (aggs : list (string * list value)) : Prop :=
  Forall2 (fun f a => fst f = fst a /\ bucket_keys (snd f) (snd a)) fields aggs.

Definition nonempty (a : string * list value) : bool :=
  match snd a with
  | [] => false
  | _ :: _ => true
  end.

(** What one step of the [reduce] does to the accumulator, on the view. *)
Definition merge (acc : list (string * list value)) (a : string * list value)
  : list (string * list value) :=
  update_key (attributeCode (fst a))
    (set_of (match assoc (attributeCode (fst a)) acc with
             | Some l => l
             | None => []
             end ++ snd a)) acc.

Section View.

Variable fields : list (string * value).

Let by_key (k : string) (a : string * list value) : Prop :=
  k = fst a /\
  exists bs, buckets_of (VObj fields) k = Some (VArr bs) /\
             map_opt (get "key") bs = Some (snd a).

Lemma view_by_key (fs : list (string * value)) (aggs : list (string * list value)) :
  (forall f, In f fs -> assoc (fst f) fields = Some (snd f)) ->
  aggregations_view fs aggs ->
  Forall2 by_key (map fst fs) aggs.
Proof.
  intros Hin Hview. induction Hview as [|f a fs aggs [Hname (bs & Hb & Hk)] _ IH]; simpl.
  - constructor.
  - constructor.
    + split; [exact Hname|]. exists bs. split; [|exact Hk].
      unfold buckets_of. simpl. rewrite (Hin f (or_introl eq_refl)). simpl. exact Hb.
    + apply IH. intros f' Hf'. apply Hin. now right.
Qed.

Lemma map_opt_length {A B : Type} (f : A -> option B) (l : list A) (r : list B) :
  map_opt f l = Some r -> List.length l = List.length r.
Proof.
  intros H. apply map_opt_Some_Forall2 in H.
  induction H; simpl; congruence.
Qed.

Lemma filter_by_key (ks : list string) (aggs : list (string * list value)) :
  Forall2 by_key ks aggs ->
  filter_opt (fun key => b <- buckets_of (VObj fields) key ;;
                         len <- get "length" b ;;
                         Some (truthy len)) ks
  = Some (map fst (filter nonempty aggs)) /\
  Forall2 by_key (map fst (filter nonempty aggs)) (filter nonempty aggs).
Proof.
  induction 1 as [|k a ks aggs [Hname (bs & Hb & Hk)] _ [IH1 IH2]]; simpl.
  - split; constructor.
  - rewrite Hb. simpl. rewrite IH1. simpl.
    apply map_opt_length in Hk as Hlen.
    destruct (snd a) as [|k0 ks0] eqn:Ha.
    + replace (nonempty a) with false by (unfold nonempty; now rewrite Ha).
      destruct bs; [|discriminate]. simpl. split; [reflexivity | exact IH2].
    + replace (nonempty a) with true by (unfold nonempty; now rewrite Ha).
      destruct bs; [discriminate|]. simpl. split.
      * now rewrite Hname.
      * constructor; [|exact IH2]. split; [reflexivity|].
        exists (v :: bs). rewrite <- Hname, Ha. auto.
Qed.

Lemma collect_by_key (k : string) (a : string * list value)
    (acc : list (string * list value)) :
  by_key k a ->
  collect (VObj fields) acc k
  = match assoc (attributeCode (fst a)) acc with
    | Some _ => Some (merge acc a)
    | None => if inherited (attributeCode (fst a)) then None else Some (merge acc a)
    end.
Proof.
  intros [Hname (bs & Hb & Hk)]. unfold collect, merge.
  rewrite Hb. simpl. rewrite Hk. simpl. rewrite Hname.
  destruct (assoc (attributeCode (fst a)) acc); reflexivity.
Qed.



(** It throws when an attribute code is an inherited name. *)
Lemma fold_by_key_inherited (ks : list string) (aggs acc : list (string * list value))
    (a : string * list value) :
  Forall2 by_key ks aggs ->
  In a aggs ->
  inherited (attributeCode (fst a)) = true ->
  (forall code, inherited code = true -> assoc code acc = None) ->
  fold_opt (collect (VObj fields)) ks acc = None.
Proof.
  intros H. revert acc.
  induction H as [|k b ks aggs Hkb _ IH]; intros acc Hin Ha Hacc; simpl.
  - destruct Hin.
  - rewrite (collect_by_key k b acc Hkb).
    destruct (inherited (attributeCode (fst b))) eqn:Hb.
    + now rewrite (Hacc _ Hb).
    + assert (Hnext : forall code, inherited code = true -> assoc code (merge acc b) = None).
      { intros code Hcode. unfold merge. rewrite assoc_update_other; [now apply Hacc|].
        intros ->. congruence. }
      destruct Hin as [-> | Hin]; [congruence|].
      destruct (assoc (attributeCode (fst b)) acc); simpl; now apply IH.
Qed.

End View.









(** C8, where the code departs from it. When an aggregation with buckets
    has an attribute code that a plain object inherits ([constructor],
    [toString], ...), the accumulator's property of that name is not a
    list: spreading it at line 42 throws, no lookup argument is built, and
    in a run the failure is logged without a lookup and without a
    response. *)
Theorem inherited_attribute_code_throws
    (body : value) (fields : list (string * value)) (aggs : list (string * list value))
    (name : string) (ks : list value)
    (Haggs : get "aggregations" body = Some (VObj fields))
    (Hkeys : NoDup (map fst fields))
    (Hview : aggregations_view fields aggs)
    (Hin : In (name, ks) aggs)
    (Hks : ks <> [])
    (Hcode : inherited (attributeCode name) = true) :
  attributeListParam body = None /\
  forall deps p, enrich_then_respond deps p body = [ConsoleError].
Proof.
  assert (Hby := view_by_key fields fields aggs
                   (fun f Hf => In_assoc (fst f) (snd f) fields Hkeys
                                  (eq_ind _ (fun x => In x fields) Hf _ (surjective_pairing f)))
                   Hview).
  destruct (filter_by_key fields _ _ Hby) as [Hfilter Hkept].
  assert (Hparam : attributeListParam body = None).
  { unfold attributeListParam. rewrite Haggs. simpl. rewrite Hfilter. simpl.
    apply (fold_by_key_inherited fields _ _ [] (name, ks) Hkept).
    - apply filter_In. split; [exact Hin|]. destruct ks; [congruence | reflexivity].
    - exact Hcode.
    - reflexivity. }
  split; [exact Hparam|].
  intros deps p. unfold enrich_then_respond, getProductsAttributesMetadata.
  now rewrite Haggs, Hparam.
Qed.

Definition constructor_aggregations : value :=
  VObj [("aggregations",
         VObj [("agg_terms_color",
                VObj [("buckets", VArr [VObj [("key", VStr "red"); ("doc_count", VNum 3)]])]);
               ("agg_terms_constructor",
                VObj [("buckets", VArr [VObj [("key", VNum 1); ("doc_count", VNum 2)]])])])].

Lemma inherited_attribute_code_throws_witness :
  attributeCode "agg_terms_constructor" = "constructor" /\
  attributeListParam constructor_aggregations = None.
Proof.
  split; [reflexivity|].
  assert (Hkeys : NoDup (map fst [("agg_terms_color", VNull);
                                  ("agg_terms_constructor", VNull)])).
  { repeat constructor; simpl; intuition discriminate. }
  assert (Hview : aggregations_view
                    [("agg_terms_color",
                      VObj [("buckets", VArr [VObj [("key", VStr "red"); ("doc_count", VNum 3)]])]);
                     ("agg_terms_constructor",
                      VObj [("buckets", VArr [VObj [("key", VNum 1); ("doc_count", VNum 2)]])])]
                    [("agg_terms_color", [VStr "red"]);
                     ("agg_terms_constructor", [VNum 1])]).
  { repeat constructor; simpl; eexists; split; reflexivity. }
  apply (inherited_attribute_code_throws constructor_aggregations _ _
           "agg_terms_constructor" [VNum 1] eq_refl Hkeys Hview
           (or_intror (or_introl eq_refl))).
  - discriminate.
  - reflexivity.
Defined.

(** ** The shape of a run *)

Lemma at_index_hits {A : Type} (l : list A) (i : nat) : at_index "hits" i l = None.
Proof.
  revert i. induction l as [|x l IH]; intros i; simpl; auto.
  rewrite IH.
  unfold nat_str, NilZero.string_of_uint.
  destruct (Nat.to_uint i); reflexivity.
Qed.

(** Only an object has a truthy [hits] property. *)
Lemma truthy_hits_prop (v : value) :
  truthy (and_prop v "hits") = true ->
  exists fs, v = VObj fs /\ assoc "hits" fs = Some (and_prop v "hits").
Proof.
  unfold and_prop. intros H.
  destruct v as [| |b|n|s|l|fs]; simpl in *; try discriminate.
  - destruct b; discriminate.
  - destruct n; discriminate.
  - rewrite at_index_hits in H. destruct s; discriminate.
  - rewrite at_index_hits in H. discriminate.
  - exists fs. split; [reflexivity|].
    destruct (assoc "hits" fs); [reflexivity | discriminate].
Qed.

Lemma hits_of_shape (resBody : value) :
  truthy (hits_of resBody) = true ->
  exists fs hs, resBody = VObj fs /\
                assoc "hits" fs = Some (VObj hs) /\
                assoc "hits" hs = Some (hits_of resBody).
Proof.
  unfold hits_of. intros H.
  destruct (truthy_hits_prop _ H) as (hs & Hhs & Hhits).
  assert (H1 : truthy (and_prop resBody "hits") = true) by now rewrite Hhs.
  destruct (truthy_hits_prop _ H1) as (fs & Hfs & Hh).
  exists fs, hs. rewrite <- Hhs. auto.
Qed.

Lemma set_hits_shape (resBody result : value) :
  truthy (hits_of resBody) = true ->
  exists fs hs,
    resBody = VObj fs /\
    assoc "hits" fs = Some (VObj hs) /\
    set_hits resBody result
    = Some (VObj (update_key "hits" (VObj (update_key "hits" result hs)) fs)).
Proof.
  intros H. destruct (hits_of_shape _ H) as (fs & hs & -> & Hfs & _).
  exists fs, hs. repeat split; auto.
  unfold set_hits. simpl. rewrite Hfs. reflexivity.
Qed.

Lemma count_app (f : event -> bool) (a b : list event) :
  count f (a ++ b) = (count f a + count f b)%nat.
Proof. unfold count. now rewrite filter_app, List.length_app. Qed.

Lemma count_none (f : event -> bool) (t : list event) :
  Forall (fun e => f e = false) t -> count f t = 0%nat.
Proof.
  unfold count. induction 1 as [|e t He _ IH]; simpl; auto. now rewrite He.
Qed.

(** What follows the processor is made of cache writes, lookups, log lines
    and at most responses. *)
Definition late (e : event) : bool :=
  match e with
  | CacheSet _ _ _ | AttributeList _ _ | ConsoleError | Json _ => true
  | _ => false
  end.

(** The log line of a failed cache write changes nothing else of a run. *)
Lemma settle_write_Forall (P : event -> Prop) (w : write_result) (main : list event) :
  P ConsoleError -> Forall P main -> Forall P (settle_write w main).
Proof.
  intros Hlog Hmain. destruct w as [|before_answer]; simpl; [exact Hmain|].
  assert (Hend : forall t, Forall P t -> Forall P (t ++ [ConsoleError])).
  { intros t Ht. apply Forall_app. split; [exact Ht | repeat constructor; exact Hlog]. }
  destruct main as [|[] later]; try now apply Hend.
  inversion Hmain; subst.
  destruct before_answer; constructor; auto.
Qed.

Lemma settle_write_count (f : event -> bool) (w : write_result) (main : list event) :
  f ConsoleError = false -> count f (settle_write w main) = count f main.
Proof.
  intros Hlog. destruct w as [|before_answer]; simpl; [reflexivity|].
  assert (Hend : forall t, count f (t ++ [ConsoleError]) = count f t).
  { intros t. rewrite count_app. unfold count at 2. simpl. rewrite Hlog. simpl. lia. }
  destruct main as [|[] later]; try now apply Hend.
  destruct before_answer.
  - unfold count. simpl. now rewrite Hlog.
  - apply (Hend (_ :: later)).
Qed.


Section Shape.

Variable deps : Collaborators.
Variable config : Config.

Lemma respond_late (p : Prepared) (b : value) : Forall (fun e => late e = true) (respond p b).
Proof. unfold respond. destruct (_outputFormatter _ _); repeat constructor. Qed.

Lemma respond_no_cache (p : Prepared) (b : value) :
  Forall (fun e => is_cache_access e = false) (respond p b).
Proof. unfold respond. destruct (_outputFormatter _ _); repeat constructor. Qed.

Lemma enrich_late (p : Prepared) (b : value) :
  Forall (fun e => late e = true) (enrich_then_respond deps p b).
Proof.
  unfold enrich_then_respond, getProductsAttributesMetadata.
  destruct (get "aggregations" b) as [a|]; [|repeat constructor].
  destruct (truthy a); [|apply respond_late].
  destruct (attributeListParam b); simpl; [|repeat constructor].
  constructor; [reflexivity|].
  destruct (AttributeService_list _ _ _); [|repeat constructor].
  destruct (bind _ _); [apply respond_late | repeat constructor].
Qed.

Lemma enrich_no_cache (p : Prepared) (b : value) :
  Forall (fun e => is_cache_access e = false) (enrich_then_respond deps p b).
Proof.
  unfold enrich_then_respond, getProductsAttributesMetadata.
  destruct (get "aggregations" b) as [a|]; [|repeat constructor].
  destruct (truthy a); [|apply respond_no_cache].
  destruct (attributeListParam b); simpl; [|repeat constructor].
  constructor; [reflexivity|].
  destruct (AttributeService_list _ _ _); [|repeat constructor].
  destruct (bind _ _); [apply respond_no_cache | repeat constructor].
Qed.


Lemma cacheStorage_late (b : value) (h : string) (tags : list string) :
  Forall (fun e => late e = true) (_cacheStorageHandler deps config b h tags).
Proof.
  unfold _cacheStorageHandler. destruct (outputCache deps config); repeat constructor.
Qed.

Lemma cacheStorage_off (b : value) (h : string) (tags : list string) :
  outputCache deps config = None -> _cacheStorageHandler deps config b h tags = [].
Proof. unfold _cacheStorageHandler. now intros ->. Qed.

Lemma write_outcome_off (b : value) (h : string) (tags : list string) :
  outputCache deps config = None -> write_outcome deps config b h tags = Written.
Proof. unfold write_outcome. now intros ->. Qed.


Lemma after_process_late (p : Prepared) (b : value) (tags : list string)
    (enrich : bool) (r : promise value) :
  Forall (fun e => late e = true) (after_process deps config p b tags enrich r).
Proof.
  unfold after_process. destruct r; [|repeat constructor].
  destruct (set_hits b a); [|repeat constructor].
  apply Forall_app. split; [apply cacheStorage_late|].
  apply settle_write_Forall; [reflexivity|].
  destruct enrich; [apply enrich_late | apply respond_late].
Qed.

Lemma after_process_no_cache (p : Prepared) (b : value) (tags : list string)
    (enrich : bool) (r : promise value) :
  outputCache deps config = None ->
  Forall (fun e => is_cache_access e = false) (after_process deps config p b tags enrich r).
Proof.
  intros Hoff. unfold after_process. destruct r; [|repeat constructor].
  destruct (set_hits b a); [|repeat constructor].
  rewrite cacheStorage_off, write_outcome_off by exact Hoff. simpl.
  destruct enrich; [apply enrich_no_cache | apply respond_no_cache].
Qed.

Lemma late_not_backend (t : list event) :
  Forall (fun e => late e = true) t -> Forall (fun e => is_backend_call e = false) t.
Proof. apply Forall_impl. intros []; simpl; congruence. Qed.

(** The backend is called exactly once by [dynamicRequestHandler], however
    the call and what follows it turn out. *)
Lemma dynamicRequestHandler_one_call (req : Request) (p : Prepared) :
  count is_backend_call (fst (dynamicRequestHandler deps config req p)) = 1%nat.
Proof.
  unfold dynamicRequestHandler.
  destruct (truthy _); [|reflexivity].
  destruct (tagsArray _ _ _); [|reflexivity].
  destruct (resultProcessor _ _) as [[adapter process]|]; [|reflexivity].
  destruct (entityType p =? "product"); cbn [fst];
    change (?a :: ?b :: ?t) with ([a; b] ++ t)%list;
    rewrite count_app, (count_none is_backend_call (after_process _ _ _ _ _ _ _))
      by (apply late_not_backend, after_process_late); reflexivity.
Qed.

Lemma dynamicRequestHandler_no_cache (req : Request) (p : Prepared) :
  outputCache deps config = None ->
  count is_cache_access (fst (dynamicRequestHandler deps config req p)) = 0%nat.
Proof.
  intros Hoff. apply count_none. unfold dynamicRequestHandler.
  destruct (truthy _); [|repeat constructor].
  destruct (tagsArray _ _ _); [|repeat constructor].
  destruct (resultProcessor _ _) as [[adapter process]|]; [|repeat constructor].
  destruct (entityType p =? "product"); cbn [fst];
    repeat (constructor; [reflexivity|]); now apply after_process_no_cache.
Qed.

End Shape.

Lemma set_hits_aggregations (resBody result written : value) :
  truthy (hits_of resBody) = true ->
  set_hits resBody result = Some written ->
  get "aggregations" written = get "aggregations" resBody /\
  attributeListParam written = attributeListParam resBody.
Proof.
  intros Hhits Hset.
  destruct (set_hits_shape resBody result Hhits) as (fs & hs & -> & _ & Hw).
  rewrite Hw in Hset. inversion Hset; subst written.
  assert (H : get "aggregations" (VObj (update_key "hits" (VObj (update_key "hits" result hs)) fs))
              = get "aggregations" (VObj fs)).
  { simpl. now rewrite assoc_update_other by discriminate. }
  split; [exact H|]. unfold attributeListParam. now rewrite H.
Qed.


(** ** The cache read *)

(** C2, as the code has it. With the output cache on, a read that finds
    nothing goes on to the backend call, which is then made exactly once;
    a read that fails is logged and the request ends there, without a
    backend call and without a response. *)
Theorem cache_read_failure_logged
    (deps : Collaborators) (config : Config) (c : CacheClient)
    (req : Request) (p : Prepared)
    (Hon : outputCache deps config = Some c)
    (Hp : prepare deps config req = inr p) :
  (cache_get c ("api:" ++ reqHash p) = Resolves VNull ->
   handler deps config req
   = (CacheGet ("api:" ++ reqHash p) :: SetHeader "X-VS-Cache" "Miss" :: ConsoleLog ::
        fst (dynamicRequestHandler deps config req p),
      snd (dynamicRequestHandler deps config req p)) /\
   count is_backend_call (fst (handler deps config req)) = 1%nat) /\
  (cache_get c ("api:" ++ reqHash p) = Rejects ->
   handler deps config req = ([CacheGet ("api:" ++ reqHash p); ConsoleError], Done) /\
   count is_backend_call (fst (handler deps config req)) = 0%nat /\
   count is_response (fst (handler deps config req)) = 0%nat).
Proof.
  unfold handler. rewrite Hp, Hon. split; intros ->; simpl.
  - destruct (dynamicRequestHandler deps config req p) as [evs e] eqn:E.
    split; [reflexivity|]. simpl.
    change evs with (fst (evs, e)). rewrite <- E.
    change (?a :: ?b :: ?d :: ?t) with ([a; b; d] ++ t)%list.
    rewrite count_app. simpl. apply dynamicRequestHandler_one_call.
  - auto.
Qed.

Lemma cache_read_failure_logged_witness :
  handler (Fixture.deps (Some Fixture.broken_cache) Fixture.answer Fixture.keep Rejects)
          (Fixture.config true) (Fixture.post Fixture.product_path (VObj []))
  = ([CacheGet "api:{}/myindex/product/_search"; ConsoleError], Done).
Proof.
  apply (cache_read_failure_logged
           (Fixture.deps (Some Fixture.broken_cache) Fixture.answer Fixture.keep Rejects)
           (Fixture.config true) Fixture.broken_cache
           (Fixture.post Fixture.product_path (VObj [])) Fixture.product_prepared
           eq_refl eq_refl).
  reflexivity.
Defined.

(** C2, as stated, fails: here the cache read fails, and the request is
    neither passed to the backend nor answered. *)
Lemma cache_read_failure_unanswered :
  cache_get Fixture.broken_cache "api:{}/myindex/product/_search" = Rejects /\
  handler (Fixture.deps (Some Fixture.broken_cache) Fixture.answer Fixture.keep Rejects)
          (Fixture.config true) (Fixture.post Fixture.product_path (VObj []))
  = ([CacheGet "api:{}/myindex/product/_search"; ConsoleError], Done) /\
  count is_backend_call
    (fst (handler (Fixture.deps (Some Fixture.broken_cache) Fixture.answer Fixture.keep Rejects)
                  (Fixture.config true) (Fixture.post Fixture.product_path (VObj []))))
  = 0%nat /\
  count is_response
    (fst (handler (Fixture.deps (Some Fixture.broken_cache) Fixture.answer Fixture.keep Rejects)
                  (Fixture.config true) (Fixture.post Fixture.product_path (VObj []))))
  = 0%nat.
Proof. repeat split. Qed.

(** ** Product requests: processor, cache write, enrichment, response *)

Definition is_cache_set (e : event) : bool :=
  match e with CacheSet _ _ _ => true | _ => false end.


(** The tags of the cache writes of a run. *)
Definition written_tags (t : list event) : list (list string) :=
  flat_map (fun e => match e with CacheSet _ _ tags => [tags] | _ => [] end) t.


Lemma cacheStorage_on (deps : Collaborators) (config : Config) (c : CacheClient)
    (b : value) (h : string) (tags : list string) :
  outputCache deps config = Some c ->
  _cacheStorageHandler deps config b h tags = [CacheSet ("api:" ++ h) b tags].
Proof. unfold _cacheStorageHandler. now intros ->. Qed.







(** ** Validation and normalisation *)


Lemma handler_cache_off (deps : Collaborators) (config : Config) (req : Request) (p : Prepared) :
  outputCache deps config = None ->
  prepare deps config req = inr p ->
  handler deps config req = dynamicRequestHandler deps config req p.
Proof. intros Hoff Hp. unfold handler. now rewrite Hp, Hoff. Qed.

(** [prepare] on a request that passes every check. *)
Lemma prepare_passes (deps : Collaborators) (config : Config) (req : Request)
    (parsed translated stripped group : value) :
  orb (method req =? "GET") (orb (method req =? "POST") (method req =? "OPTIONS")) = true ->
  parse_body deps req = inr parsed ->
  translate deps req parsed = inr translated ->
  (List.length (split "/" (url req)) <? 2)%nat = false ->
  existsb (String.eqb (nth 1 (split "/" (url req)) "")) (indices config) = true ->
  starts_with "_search" (last (split "/" (url req)) "") = true ->
  group_of deps config translated = inr group ->
  (b <- delete "groupToken" translated ;; delete "groupId" b) = Some stripped ->
  prepare deps config req
  = inr {| indexName := nth 1 (split "/" (url req)) "";
           entityType := if (2 <? List.length (split "/" (url req)))%nat
                         then nth 2 (split "/" (url req)) "" else "";
           responseFormat := match query_response_format req with
                             | Some f => if present (Some f) then f else "standard"
                             | None => "standard"
                             end;
           requestBody := stripped;
           groupId := group;
           reqAuth := auth_of_config config;
           elasticBackendUrl :=
             adjustBackendProxyUrl deps req (nth 1 (split "/" (url req)) "")
               (if (2 <? List.length (split "/" (url req)))%nat
                then nth 2 (split "/" (url req)) "" else "");
           reqHash := sha3_224 deps (JSON_stringify deps stripped ++ url req) |}.
Proof.
  intros Hmethod Hparse Htranslate Hlen Hindex Hsearch Hgroup Hstrip.
  unfold prepare.
  rewrite Hmethod, Hparse. cbn [negb bind_result].
  rewrite Htranslate. cbn [bind_result].
  rewrite Hlen, Hindex, Hsearch. cbn [negb].
  rewrite Hgroup. cbn [bind_result].
  destruct (delete "groupToken" translated) as [b|]; [|discriminate].
  cbn [bind or_throw bind_result] in *. rewrite Hstrip. reflexivity.
Qed.

Lemma truthy_long_token (token : string) :
  (10 < Z.of_nat (String.length token))%Z ->
  truthy (VStr token) && gt10 (or_undef (get "length" (VStr token))) = true.
Proof.
  intros Hlen. simpl. apply Z.ltb_lt in Hlen. rewrite Hlen.
  destruct token; [discriminate | reflexivity].
Qed.

(** C4, as the code has it. A GET request to
    [/myindex/product/_search?response_format=compact], with [myindex] in
    the allow-list, a group token that decodes, and the output cache off,
    passes validation as a [product] request on [myindex] in [compact]
    format, makes no cache access and calls the backend exactly once. *)
Theorem product_search_bypasses_cache
    (deps : Collaborators) (config : Config) (req : Request)
    (token : string) (decoded group_id : value)
    (Hoff : useOutputCache config = false)
    (Hindex : existsb (String.eqb "myindex") (indices config) = true)
    (Hmethod : method req = "GET")
    (Hurl : url req = "/myindex/product/_search?response_format=compact")
    (Hrequest : query_request req = None)
    (Hformat : query_request_format req = None)
    (Hcompact : query_response_format req = Some "compact")
    (Hbody : body req = VObj [("groupToken", VStr token)])
    (Hlen : (10 < Z.of_nat (String.length token))%Z)
    (Hjwt : jwt_decode deps (VStr token)
              (if truthy (authHashSecret config)
               then authHashSecret config else objHashSecret config) = Some decoded)
    (Hgroup : get "group_id" decoded = Some group_id) :
  exists p,
    prepare deps config req = inr p /\
    indexName p = "myindex" /\
    entityType p = "product" /\
    responseFormat p = "compact" /\
    requestBody p = VObj [] /\
    groupId p = or_else group_id VNull /\
    handler deps config req = dynamicRequestHandler deps config req p /\
    count is_cache_access (fst (handler deps config req)) = 0%nat /\
    count is_backend_call (fst (handler deps config req)) = 1%nat.
Proof.
  assert (Hcache : outputCache deps config = None)
    by (unfold outputCache; now rewrite Hoff).
  assert (Hp : exists p, prepare deps config req = inr p /\
                         indexName p = "myindex" /\ entityType p = "product" /\
                         responseFormat p = "compact" /\ requestBody p = VObj [] /\
                         groupId p = or_else group_id VNull).
  { eexists. split.
    - apply (prepare_passes deps config req (body req) (body req) (VObj [])
               (or_else group_id VNull)).
      + now rewrite Hmethod.
      + unfold parse_body. now rewrite Hrequest, Bool.andb_false_r.
      + unfold translate. now rewrite Hformat.
      + now rewrite Hurl.
      + rewrite Hurl. exact Hindex.
      + now rewrite Hurl.
      + unfold group_of. rewrite Hbody.
        change (get "groupToken" (VObj [("groupToken", VStr token)]))
          with (Some (VStr token)).
        cbn [or_throw bind_result].
        rewrite (truthy_long_token token Hlen), Hjwt.
        cbn [or_throw bind_result]. now rewrite Hgroup.
      + now rewrite Hbody.
    - rewrite Hurl, Hcompact. cbn. auto. }
  destruct Hp as (p & Hp & Hrest).
  exists p. split; [exact Hp|]. repeat (split; [apply Hrest|]).
  rewrite (handler_cache_off deps config req p Hcache Hp).
  split; [reflexivity|]. split.
  - now apply dynamicRequestHandler_no_cache.
  - apply dynamicRequestHandler_one_call.
Qed.

Lemma product_search_bypasses_cache_witness :
  count is_cache_access
    (fst (handler (Fixture.deps None Fixture.answer Fixture.keep (Resolves (VArr [])))
                  (Fixture.config false)
                  (Fixture.get_compact "/myindex/product/_search?response_format=compact"
                     (VObj [("groupToken", VStr "aaaaaaaaaaaaaaaaaaa")]))))
  = 0%nat /\
  count is_backend_call
    (fst (handler (Fixture.deps None Fixture.answer Fixture.keep (Resolves (VArr [])))
                  (Fixture.config false)
                  (Fixture.get_compact "/myindex/product/_search?response_format=compact"
                     (VObj [("groupToken", VStr "aaaaaaaaaaaaaaaaaaa")]))))
  = 1%nat.
Proof.
  destruct (product_search_bypasses_cache
              (Fixture.deps None Fixture.answer Fixture.keep (Resolves (VArr [])))
              (Fixture.config false)
              (Fixture.get_compact "/myindex/product/_search?response_format=compact"
                 (VObj [("groupToken", VStr "aaaaaaaaaaaaaaaaaaa")]))
              "aaaaaaaaaaaaaaaaaaa" (VObj [("group_id", VNum 2)]) (VNum 2)
              eq_refl eq_refl eq_refl eq_refl eq_refl eq_refl eq_refl eq_refl
              eq_refl eq_refl eq_refl)
    as (p & _ & _ & _ & _ & _ & _ & _ & Hcache & Hcall).
  split; [exact Hcache | exact Hcall].
Defined.

(** C4, as stated, fails: the URL
    [/myindex/product_search?response_format=compact] does not pass
    validation, because its last segment does not start with [_search];
    the handler throws and the backend is never called. *)
Lemma product_search_url_rejected :
  handler (Fixture.deps None Fixture.answer Fixture.keep (Resolves (VArr [])))
          (Fixture.config false)
          (Fixture.get_compact "/myindex/product_search?response_format=compact"
             (VObj [("groupToken", VStr "aaaaaaaaaaaaaaaaaaa")]))
  = ([], Thrown (Error "Please do use following URL format: /api/catalog/<index_name>/_search")) /\
  count is_backend_call
    (fst (handler (Fixture.deps None Fixture.answer Fixture.keep (Resolves (VArr [])))
                  (Fixture.config false)
                  (Fixture.get_compact "/myindex/product_search?response_format=compact"
                     (VObj [("groupToken", VStr "aaaaaaaaaaaaaaaaaaa")]))))
  = 0%nat.
Proof. split; reflexivity. Qed.

(** C10. A request for [/myindex//_search] on an allowed index passes
    validation with the empty entity type. For every request that passes
    validation with an empty entity type, with the output cache on, a cache
    miss and a backend answer with hits: taking the first character of the
    entity type fails, the exception escapes the backend callback, and the
    run stops after the backend call without a response. *)
Theorem empty_entity_type_escapes :
  (forall (deps : Collaborators) (config : Config) (req : Request),
     method req = "GET" \/ method req = "POST" \/ method req = "OPTIONS" ->
     url req = "/myindex//_search" ->
     present (query_request req) = false ->
     query_request_format req = None ->
     body req = VObj [] ->
     existsb (String.eqb "myindex") (indices config) = true ->
     exists p, prepare deps config req = inr p /\
               indexName p = "myindex" /\ entityType p = "") /\
  (forall (deps : Collaborators) (config : Config) (c : CacheClient)
          (req : Request) (p : Prepared),
     outputCache deps config = Some c ->
     prepare deps config req = inr p ->
     entityType p = "" ->
     cache_get c ("api:" ++ reqHash p) = Resolves VNull ->
     truthy (hits_of (backend deps (backendCall req p))) = true ->
     tagsArray true (entityType p) (hits_of (backend deps (backendCall req p))) = None /\
     handler deps config req
     = ([CacheGet ("api:" ++ reqHash p); SetHeader "X-VS-Cache" "Miss"; ConsoleLog;
         BackendCall (backendCall req p)], Uncaught)).
Proof.
  split.
  - intros deps config req Hmethod Hurl Hrequest Hformat Hbody Hindex.
    eexists. split.
    + apply (prepare_passes deps config req (VObj []) (VObj []) (VObj []) VNull).
      * destruct Hmethod as [-> | [-> | ->]]; reflexivity.
      * unfold parse_body. now rewrite Hrequest, Bool.andb_false_r, Hbody.
      * unfold translate. now rewrite Hformat.
      * now rewrite Hurl.
      * rewrite Hurl. exact Hindex.
      * now rewrite Hurl.
      * reflexivity.
      * reflexivity.
    + rewrite Hurl. cbn. auto.
  - intros deps config c req p Hon Hp Hentity Hmiss Hhits.
    assert (Htags : tagsArray true (entityType p)
                      (hits_of (backend deps (backendCall req p))) = None)
      by now rewrite Hentity.
    split; [exact Htags|].
    unfold handler. rewrite Hp, Hon, Hmiss. cbn [not_null].
    unfold dynamicRequestHandler, outputCacheOn. rewrite Hhits, Hon, Htags. reflexivity.
Qed.

Lemma empty_entity_type_escapes_witness :
  handler (Fixture.deps (Some Fixture.empty_cache) Fixture.answer Fixture.keep (Resolves (VArr [])))
          (Fixture.config true) (Fixture.post "/myindex//_search" (VObj []))
  = ([CacheGet "api:{}/myindex//_search"; SetHeader "X-VS-Cache" "Miss"; ConsoleLog;
      BackendCall {| uri := "http://localhost:9200/myindex//_search";
                     req_method := "POST";
                     req_body := VObj [];
                     auth := VNull |}],
     Uncaught).
Proof.
  apply (proj2 empty_entity_type_escapes
           (Fixture.deps (Some Fixture.empty_cache) Fixture.answer Fixture.keep
              (Resolves (VArr [])))
           (Fixture.config true) Fixture.empty_cache
           (Fixture.post "/myindex//_search" (VObj []))
           {| indexName := "myindex";
              entityType := "";
              responseFormat := "standard";
              requestBody := VObj [];
              groupId := VNull;
              reqAuth := VNull;
              elasticBackendUrl := "http://localhost:9200/myindex//_search";
              reqHash := "{}/myindex//_search" |});
    reflexivity.
Defined.

(** *** Group fields *)

Definition group_field (k : string) : bool := orb (k =? "groupToken") (k =? "groupId").

(** A body without its [groupToken] and [groupId] properties, the other
    properties in the order they have. *)
Definition without_group_fields (b : value) : value :=
  match b with
  | VObj fs => VObj (filter (fun f => negb (group_field (fst f))) fs)
  | _ => b
  end.

Lemma delete_group_fields (b stripped : value) :
  (x <- delete "groupToken" b ;; delete "groupId" x) = Some stripped ->
  stripped = without_group_fields b.
Proof.
  destruct b as [| |?|?|?|?|fs]; simpl; try congruence.
  intros H. inversion H. f_equal. unfold remove_key, group_field.
  clear H H1. induction fs as [|[k v] fs IH]; simpl; auto.
  destruct (k =? "groupToken"); simpl; [exact IH|].
  destruct (k =? "groupId"); simpl; [exact IH|]. now rewrite IH.
Qed.


(** What [prepare] has done when it succeeds. *)
Lemma prepare_inversion (deps : Collaborators) (config : Config) (req : Request) (p : Prepared) :
  prepare deps config req = inr p ->
  exists parsed translated,
    parse_body deps req = inr parsed /\
    translate deps req parsed = inr translated /\
    requestBody p = without_group_fields translated /\
    reqHash p = sha3_224 deps (JSON_stringify deps (requestBody p) ++ url req).
Proof.
  unfold prepare. intros H.
  destruct (negb _); [discriminate|].
  destruct (parse_body deps req) as [|parsed]; [discriminate|]. cbn [bind_result] in H.
  destruct (translate deps req parsed) as [|translated] eqn:Etranslate; [discriminate|].
  cbn [bind_result] in H.
  destruct (_ <? _)%nat; [discriminate|].
  destruct (negb _); [discriminate|].
  destruct (negb _); [discriminate|].
  destruct (group_of deps config translated) as [|g]; [discriminate|].
  cbn [bind_result] in H.
  destruct (delete "groupToken" translated) as [b1|] eqn:E1; [|discriminate].
  cbn [bind_result or_throw] in H.
  destruct (delete "groupId" b1) as [b2|] eqn:E2; [|discriminate].
  cbn [bind_result or_throw] in H.
  inversion H; subst p; cbn.
  exists parsed, translated.
  split; [reflexivity|]. split; [exact Etranslate|]. split; [|reflexivity].
  apply delete_group_fields. rewrite E1. exact E2.
Qed.

(** The query translator does not look at the group fields. *)
Definition translator_ignores_group_fields (deps : Collaborators) : Prop :=
  forall b b', without_group_fields b = without_group_fields b' ->
               buildQueryBody deps b = buildQueryBody deps b'.

(** A request format other than [search-query] leaves the body as it is. *)
Lemma translate_other (deps : Collaborators) (req : Request) (b : value) :
  query_request_format req <> Some "search-query" -> translate deps req b = inr b.
Proof.
  unfold translate. intros Hne.
  destruct (query_request_format req) as [f|]; [|reflexivity].
  destruct (String.eqb_spec f "search-query") as [-> | Hf]; [now elim Hne|].
  repeat match goal with
         | |- context [match ?x with _ => _ end] => destruct x; try reflexivity
         end.
  now elim Hf.
Qed.

(** Requests whose bodies differ at most in their group fields are
    prepared with the same body, and with the same fingerprint when their
    URLs are the same. *)
Lemma prepared_alike (deps : Collaborators) (config : Config) (r1 r2 : Request)
    (p1 p2 : Prepared) (b1 b2 : value) :
  query_request_format r1 = query_request_format r2 ->
  parse_body deps r1 = inr b1 ->
  parse_body deps r2 = inr b2 ->
  without_group_fields b1 = without_group_fields b2 ->
  (query_request_format r1 = Some "search-query" -> translator_ignores_group_fields deps) ->
  prepare deps config r1 = inr p1 ->
  prepare deps config r2 = inr p2 ->
  requestBody p1 = requestBody p2 /\ (url r1 = url r2 -> reqHash p1 = reqHash p2).
Proof.
  intros Hformat Hparse1 Hparse2 Hbody Htranslator Hp1 Hp2.
  destruct (prepare_inversion _ _ _ _ Hp1) as (parsed1 & translated1 & Hq1 & Htr1 & Hb1 & Hh1).
  destruct (prepare_inversion _ _ _ _ Hp2) as (parsed2 & translated2 & Hq2 & Htr2 & Hb2 & Hh2).
  assert (parsed1 = b1) by congruence. assert (parsed2 = b2) by congruence. subst parsed1 parsed2.
  assert (Htranslated : without_group_fields translated1 = without_group_fields translated2).
  { destruct (query_request_format r1) as [f|] eqn:Hf.
    - destruct (String.eqb_spec f "search-query") as [-> | Hne].
      + unfold translate in Htr1, Htr2. rewrite <- Hformat, ?Hf in Htr2. rewrite Hf in Htr1.
        rewrite (Htranslator eq_refl _ _ Hbody) in Htr1. congruence.
      + rewrite translate_other in Htr1, Htr2 by congruence. congruence.
    - rewrite translate_other in Htr1, Htr2 by congruence. congruence. }
  assert (Hsame : requestBody p1 = requestBody p2) by congruence.
  split; [exact Hsame|]. intros Hurl. rewrite Hh1, Hh2, Hsame, Hurl. reflexivity.
Qed.










(** * Further properties of the handler *)

(** ** Validation *)

Definition method_supported (req : Request) : bool :=
  orb (method req =? "GET") (orb (method req =? "POST") (method req =? "OPTIONS")).

(** Everything [prepare] has checked and computed when it succeeds. *)
Lemma prepare_success (deps : Collaborators) (config : Config) (req : Request) (p : Prepared) :
  prepare deps config req = inr p ->
  exists parsed translated group,
    method_supported req = true /\
    parse_body deps req = inr parsed /\
    translate deps req parsed = inr translated /\
    (List.length (split "/" (url req)) <? 2)%nat = false /\
    existsb (String.eqb (nth 1 (split "/" (url req)) "")) (indices config) = true /\
    starts_with "_search" (last (split "/" (url req)) "") = true /\
    group_of deps config translated = inr group /\
    p = {| indexName := nth 1 (split "/" (url req)) "";
           entityType := if (2 <? List.length (split "/" (url req)))%nat
                         then nth 2 (split "/" (url req)) "" else "";
           responseFormat := match query_response_format req with
                             | Some f => if present (Some f) then f else "standard"
                             | None => "standard"
                             end;
           requestBody := without_group_fields translated;
           groupId := group;
           reqAuth := auth_of_config config;
           elasticBackendUrl :=
             adjustBackendProxyUrl deps req (nth 1 (split "/" (url req)) "")
               (if (2 <? List.length (split "/" (url req)))%nat
                then nth 2 (split "/" (url req)) "" else "");
           reqHash := sha3_224 deps
                        (JSON_stringify deps (without_group_fields translated) ++ url req) |}.
Proof.
  unfold prepare, method_supported. intros H.
  destruct (orb _ _); [|discriminate]. cbn [negb] in H.
  destruct (parse_body deps req) as [|parsed]; [discriminate|]. cbn [bind_result] in H.
  destruct (translate deps req parsed) as [|translated] eqn:Etranslate; [discriminate|].
  cbn [bind_result] in H.
  destruct (_ <? _)%nat eqn:Elen; [discriminate|].
  destruct (existsb _ _) eqn:Eindex; [|discriminate]. cbn [negb] in H.
  destruct (starts_with _ _) eqn:Esearch; [|discriminate]. cbn [negb] in H.
  destruct (group_of deps config translated) as [|g] eqn:Egroup; [discriminate|].
  cbn [bind_result] in H.
  destruct (delete "groupToken" translated) as [b1|] eqn:E1; [|discriminate].
  cbn [bind_result or_throw] in H.
  destruct (delete "groupId" b1) as [b2|] eqn:E2; [|discriminate].
  cbn [bind_result or_throw] in H.
  assert (Hb : b2 = without_group_fields translated).
  { apply delete_group_fields. rewrite E1. exact E2. }
  subst b2. inversion H.
  exists parsed, translated, g. repeat (split; [reflexivity || assumption|]). reflexivity.
Qed.

Lemma dynamicRequestHandler_ending (deps : Collaborators) (config : Config)
    (req : Request) (p : Prepared) :
  snd (dynamicRequestHandler deps config req p) = Done \/
  snd (dynamicRequestHandler deps config req p) = Uncaught.
Proof.
  unfold dynamicRequestHandler.
  destruct (truthy _); [|now left].
  destruct (tagsArray _ _ _); [|now right].
  destruct (resultProcessor _ _) as [[adapter process]|]; [|now right].
  destruct (entityType p =? "product"); now left.
Qed.

(** X1. The handler throws only out of validation and normalisation, and
    then it has made no cache access, no backend call and no response:
    a run that ends thrown has no effect at all. *)
Theorem handler_throws_before_any_effect
    (deps : Collaborators) (config : Config) (req : Request) (e : error)
    (Hthrown : snd (handler deps config req) = Thrown e) :
  prepare deps config req = inl e /\ handler deps config req = ([], Thrown e).
Proof.
  unfold handler in *.
  destruct (prepare deps config req) as [e'|p]; cbn in Hthrown.
  - inversion Hthrown. auto.
  - exfalso.
    destruct (outputCache deps config) as [c|].
    + destruct (cache_get c _) as [output|]; [|discriminate].
      destruct (not_null output); [discriminate|].
      destruct (dynamicRequestHandler_ending deps config req p) as [H | H];
        destruct (dynamicRequestHandler deps config req p); cbn in *; congruence.
    + destruct (dynamicRequestHandler_ending deps config req p) as [H | H]; congruence.
Qed.

Definition put_request : Request :=
  {| method := "PUT"; url := "/myindex/product/_search"; body := VObj [];
     query_request := None; query_request_format := None;
     query_response_format := None |}.

Lemma handler_throws_before_any_effect_witness :
  handler (Fixture.deps (Some Fixture.empty_cache) Fixture.answer Fixture.keep Rejects)
          (Fixture.config true) put_request
  = ([], Thrown (Error "ERROR: PUT request method is not supported.")).
Proof.
  apply (handler_throws_before_any_effect
           (Fixture.deps (Some Fixture.empty_cache) Fixture.answer Fixture.keep Rejects)
           (Fixture.config true) put_request
           (Error "ERROR: PUT request method is not supported.") eq_refl).
Defined.

(** X2. A request that passes [prepare] has one of the methods GET, POST
    and OPTIONS, a URL with at least two segments whose second segment is
    the index name, an index name of the configured list, and a last
    segment that starts with [_search]; its entity type is the third
    segment, or empty when there is none. *)
Theorem prepare_validated
    (deps : Collaborators) (config : Config) (req : Request) (p : Prepared)
    (Hp : prepare deps config req = inr p) :
  (method req = "GET" \/ method req = "POST" \/ method req = "OPTIONS") /\
  (2 <= List.length (split "/" (url req)))%nat /\
  indexName p = nth 1 (split "/" (url req)) "" /\
  In (indexName p) (indices config) /\
  starts_with "_search" (last (split "/" (url req)) "") = true /\
  entityType p = (if (2 <? List.length (split "/" (url req)))%nat
                  then nth 2 (split "/" (url req)) "" else "").
Proof.
  destruct (prepare_success _ _ _ _ Hp)
    as (parsed & translated & g & Hm & _ & _ & Hlen & Hindex & Hsearch & _ & ->).
  cbn. repeat split; auto.
  - unfold method_supported in Hm.
    apply Bool.orb_true_iff in Hm as [Hm | Hm]; [left; now apply String.eqb_eq|].
    apply Bool.orb_true_iff in Hm as [Hm | Hm]; right; [left | right]; now apply String.eqb_eq.
  - apply Nat.ltb_ge in Hlen. exact Hlen.
  - apply existsb_exists in Hindex as (x & Hin & Hx).
    apply String.eqb_eq in Hx. now subst x.
Qed.

Lemma prepare_validated_witness :
  In (indexName Fixture.product_prepared) (indices (Fixture.config false)).
Proof.
  apply (prepare_validated
           (Fixture.deps None Fixture.answer Fixture.keep Rejects) (Fixture.config false)
           (Fixture.post Fixture.product_path (VObj [])) Fixture.product_prepared eq_refl).
Defined.

(** X3. The checks are made in a fixed order and each failure has its own
    message. An unsupported method is refused whatever else the request
    holds. With a supported method and a body that parses and translates:
    a URL without two segments is refused for its missing index name; an
    index name outside the configured list is refused before the last
    segment is looked at; and a last segment that does not start with
    [_search] is refused last. Nothing has been done in any of these runs. *)
Theorem validation_errors (deps : Collaborators) (config : Config) (req : Request) :
  (method_supported req = false ->
   handler deps config req
   = ([], Thrown (Error ("ERROR: " ++ method req ++ " request method is not supported.")))) /\
  (forall parsed translated,
     method_supported req = true ->
     parse_body deps req = inr parsed ->
     translate deps req parsed = inr translated ->
     ((List.length (split "/" (url req)) <? 2)%nat = true ->
      handler deps config req
      = ([], Thrown (Error "No index name given in the URL. Please do use following URL format: /api/catalog/<index_name>/<entity_type>_search"))) /\
     ((List.length (split "/" (url req)) <? 2)%nat = false ->
      existsb (String.eqb (nth 1 (split "/" (url req)) "")) (indices config) = false ->
      handler deps config req
      = ([], Thrown (Error "Invalid / inaccessible index name given in the URL. Please do use following URL format: /api/catalog/<index_name>/_search"))) /\
     ((List.length (split "/" (url req)) <? 2)%nat = false ->
      existsb (String.eqb (nth 1 (split "/" (url req)) "")) (indices config) = true ->
      starts_with "_search" (last (split "/" (url req)) "") = false ->
      handler deps config req
      = ([], Thrown (Error "Please do use following URL format: /api/catalog/<index_name>/_search")))).
Proof.
  split.
  - intros Hm. unfold handler, prepare. fold (method_supported req). now rewrite Hm.
  - intros parsed translated Hm Hparse Htr.
    unfold handler, prepare. fold (method_supported req).
    rewrite Hm, Hparse. cbn [negb bind_result]. rewrite Htr. cbn [bind_result].
    repeat split.
    + now intros ->.
    + now intros -> ->.
    + now intros -> -> ->.
Qed.

Lemma validation_errors_witness :
  handler (Fixture.deps None Fixture.answer Fixture.keep Rejects) (Fixture.config false)
          (Fixture.post "/otherindex/product/_search" (VObj []))
  = ([], Thrown (Error "Invalid / inaccessible index name given in the URL. Please do use following URL format: /api/catalog/<index_name>/_search")).
Proof.
  apply (proj2 (validation_errors
                  (Fixture.deps None Fixture.answer Fixture.keep Rejects) (Fixture.config false)
                  (Fixture.post "/otherindex/product/_search" (VObj [])))
           (VObj []) (VObj []) eq_refl eq_refl eq_refl);
    reflexivity.
Defined.

(** X4. The [request] query parameter is read for GET requests only: any
    other method starts from [req.body] whatever the parameter holds. For a
    GET request with a non-empty parameter the parsed parameter replaces
    [req.body], and a parameter that does not parse makes the handler
    throw before anything else is checked or done. *)
Theorem request_parameter_only_for_get (deps : Collaborators) (config : Config) (req : Request) :
  (method req <> "GET" -> parse_body deps req = inr (body req)) /\
  (forall s parsed,
     method req = "GET" -> query_request req = Some s -> s <> "" ->
     JSON_parse_uri deps s = Some parsed ->
     parse_body deps req = inr parsed) /\
  (forall s,
     method req = "GET" -> query_request req = Some s -> s <> "" ->
     JSON_parse_uri deps s = None ->
     handler deps config req = ([], Thrown External)).
Proof.
  split; [|split].
  - intros Hm. unfold parse_body.
    destruct (String.eqb_spec (method req) "GET"); [contradiction | reflexivity].
  - intros s parsed Hm Hq Hs Hparse. unfold parse_body, present.
    rewrite Hm, Hq. destruct (String.eqb_spec s ""); [contradiction|].
    cbn. now rewrite Hparse.
  - intros s Hm Hq Hs Hparse. unfold handler, prepare, parse_body, present.
    rewrite Hm, Hq. destruct (String.eqb_spec s ""); [contradiction|].
    cbn. now rewrite Hparse.
Qed.

Definition get_with_parameter : Request :=
  {| method := "GET"; url := "/nowhere"; body := VObj [];
     query_request := Some "%7B"; query_request_format := None;
     query_response_format := None |}.

Lemma request_parameter_only_for_get_witness :
  handler (Fixture.deps None Fixture.answer Fixture.keep Rejects) (Fixture.config false)
          get_with_parameter
  = ([], Thrown External).
Proof.
  apply (proj2 (proj2 (request_parameter_only_for_get
                         (Fixture.deps None Fixture.answer Fixture.keep Rejects)
                         (Fixture.config false) get_with_parameter))
           "%7B" eq_refl eq_refl);
    [discriminate | reflexivity].
Defined.

(** ** The cache *)

Lemma not_null_true (v : value) : v <> VNull -> not_null v = true.
Proof. destruct v; auto; congruence. Qed.

(** X5. With the output cache on, a read that yields anything but [null]
    ([undefined] included) is a hit: the value is sent as it was read,
    with the header [X-VS-Cache: Hit], whatever the requested response
    format; the backend is not called and nothing is written. *)
Theorem cache_hit_short_circuits
    (deps : Collaborators) (config : Config) (c : CacheClient)
    (req : Request) (p : Prepared) (output : value)
    (Hon : outputCache deps config = Some c)
    (Hp : prepare deps config req = inr p)
    (Hread : cache_get c ("api:" ++ reqHash p) = Resolves output)
    (Hvalue : output <> VNull) :
  handler deps config req
  = ([CacheGet ("api:" ++ reqHash p); SetHeader "X-VS-Cache" "Hit"; Json output; ConsoleLog],
     Done).
Proof.
  unfold handler. now rewrite Hp, Hon, Hread, (not_null_true output Hvalue).
Qed.

Definition full_cache : CacheClient :=
  {| cache_get := fun _ => Resolves (VObj [("hits", VArr [])]);
     cache_set := fun _ _ _ => Written |}.

Lemma cache_hit_short_circuits_witness :
  handler (Fixture.deps (Some full_cache) Fixture.answer Fixture.keep Rejects)
          (Fixture.config true) (Fixture.post Fixture.product_path (VObj []))
  = ([CacheGet "api:{}/myindex/product/_search"; SetHeader "X-VS-Cache" "Hit";
      Json (VObj [("hits", VArr [])]); ConsoleLog], Done).
Proof.
  apply (cache_hit_short_circuits
           (Fixture.deps (Some full_cache) Fixture.answer Fixture.keep Rejects)
           (Fixture.config true) full_cache
           (Fixture.post Fixture.product_path (VObj [])) Fixture.product_prepared
           (VObj [("hits", VArr [])]) eq_refl eq_refl eq_refl).
  discriminate.
Defined.

(** X6. A cached value is shared between groups when the URL is the
    same. When the cache holds a value for a request, a second request with
    the same URL and request format whose body, as the handler reads it
    (the [request] parameter of a GET request that has one, [req.body]
    otherwise), differs from the first one's at most in its [groupToken]
    and [groupId] is answered with that same value, and its own group
    never reaches a processor. *)
Theorem cached_response_ignores_group
    (deps : Collaborators) (config : Config) (c : CacheClient)
    (r1 r2 : Request) (p1 p2 : Prepared) (b1 b2 output : value)
    (Hon : outputCache deps config = Some c)
    (Hurl : url r1 = url r2)
    (Hformat : query_request_format r1 = query_request_format r2)
    (Hparse1 : parse_body deps r1 = inr b1)
    (Hparse2 : parse_body deps r2 = inr b2)
    (Hbody : without_group_fields b1 = without_group_fields b2)
    (Htranslator : query_request_format r1 = Some "search-query" ->
                   translator_ignores_group_fields deps)
    (Hp1 : prepare deps config r1 = inr p1)
    (Hp2 : prepare deps config r2 = inr p2)
    (Hread : cache_get c ("api:" ++ reqHash p1) = Resolves output)
    (Hvalue : output <> VNull) :
  handler deps config r2 = handler deps config r1 /\
  handler deps config r2
  = ([CacheGet ("api:" ++ reqHash p1); SetHeader "X-VS-Cache" "Hit"; Json output; ConsoleLog],
     Done).
Proof.
  destruct (prepared_alike deps config r1 r2 p1 p2 b1 b2 Hformat Hparse1 Hparse2 Hbody
              Htranslator Hp1 Hp2) as [_ Hhash].
  specialize (Hhash Hurl).
  unfold handler. rewrite Hp1, Hp2, Hon, <- Hhash, Hread, (not_null_true output Hvalue).
  auto.
Qed.

Lemma cached_response_ignores_group_witness :
  handler (Fixture.deps (Some full_cache) Fixture.answer Fixture.keep Rejects)
          (Fixture.config true)
          (Fixture.post Fixture.product_path (VObj [("groupId", VNum 4)]))
  = handler (Fixture.deps (Some full_cache) Fixture.answer Fixture.keep Rejects)
            (Fixture.config true)
            (Fixture.post Fixture.product_path
               (VObj [("groupToken", VStr "aaaaaaaaaaaaaaaaaaa")])).
Proof.
  apply (cached_response_ignores_group
           (Fixture.deps (Some full_cache) Fixture.answer Fixture.keep Rejects)
           (Fixture.config true) full_cache
           (Fixture.post Fixture.product_path
              (VObj [("groupToken", VStr "aaaaaaaaaaaaaaaaaaa")]))
           (Fixture.post Fixture.product_path (VObj [("groupId", VNum 4)]))
           {| indexName := "myindex"; entityType := "product"; responseFormat := "standard";
              requestBody := VObj []; groupId := VNum 2; reqAuth := VNull;
              elasticBackendUrl := "http://localhost:9200/myindex/product/_search";
              reqHash := "{}/myindex/product/_search" |}
           {| indexName := "myindex"; entityType := "product"; responseFormat := "standard";
              requestBody := VObj []; groupId := VNum 4; reqAuth := VNull;
              elasticBackendUrl := "http://localhost:9200/myindex/product/_search";
              reqHash := "{}/myindex/product/_search" |}
           (VObj [("groupToken", VStr "aaaaaaaaaaaaaaaaaaa")])
           (VObj [("groupId", VNum 4)])
           (VObj [("hits", VArr [])])
           eq_refl eq_refl eq_refl eq_refl eq_refl eq_refl
           (fun H : None = Some "search-query" =>
              False_ind _ (eq_ind None (fun o => match o with None => True | Some _ => False end)
                             I _ H))
           eq_refl eq_refl eq_refl).
  discriminate.
Defined.

(** ** The backend callback *)

(** The second argument of [process]: the group for a product request,
    nothing otherwise. *)
Definition group_for (p : Prepared) : value :=
  if entityType p =? "product" then groupId p else VUndef.

(** The run of [dynamicRequestHandler] once the hit list is there, the tags
    are built and a processor is found. *)
Lemma dynamicRequestHandler_processing (deps : Collaborators) (config : Config)
    (req : Request) (p : Prepared) (tags : list string)
    (adapter : string) (process : Processor) :
  truthy (hits_of (backend deps (backendCall req p))) = true ->
  tagsArray (outputCacheOn deps config) (entityType p)
    (hits_of (backend deps (backendCall req p))) = Some tags ->
  resultProcessor deps p = Some (adapter, process) ->
  dynamicRequestHandler deps config req p
  = (BackendCall (backendCall req p) ::
     Process adapter (hits_of (backend deps (backendCall req p))) (group_for p) ::
     after_process deps config p (backend deps (backendCall req p)) tags
       (entityType p =? "product")
       (process (hits_of (backend deps (backendCall req p))) (group_for p)),
     Done).
Proof.
  intros Hhits Htags Hadapter. unfold dynamicRequestHandler, group_for.
  rewrite Hhits, Htags, Hadapter. now destruct (entityType p =? "product").
Qed.

(** X7. When the backend answer has no hit list (no body at all, no
    [hits], or no [hits.hits]), the answer is sent on as it came: no
    processor runs, nothing is formatted, and nothing is written to the
    cache, so that with the cache on the request is a miss each time. *)
Theorem no_hit_list_passthrough
    (deps : Collaborators) (config : Config) (req : Request) (p : Prepared)
    (Hnone : truthy (hits_of (backend deps (backendCall req p))) = false) :
  dynamicRequestHandler deps config req p
  = ([BackendCall (backendCall req p); Json (backend deps (backendCall req p))], Done) /\
  (forall c, outputCache deps config = Some c ->
             prepare deps config req = inr p ->
             cache_get c ("api:" ++ reqHash p) = Resolves VNull ->
             handler deps config req
             = ([CacheGet ("api:" ++ reqHash p); SetHeader "X-VS-Cache" "Miss"; ConsoleLog;
                 BackendCall (backendCall req p); Json (backend deps (backendCall req p))],
                Done)).
Proof.
  assert (Hrun : dynamicRequestHandler deps config req p
                 = ([BackendCall (backendCall req p);
                     Json (backend deps (backendCall req p))], Done)).
  { unfold dynamicRequestHandler. now rewrite Hnone. }
  split; [exact Hrun|].
  intros c Hon Hp Hmiss. unfold handler. now rewrite Hp, Hon, Hmiss, Hrun.
Qed.

Lemma no_hit_list_passthrough_witness :
  dynamicRequestHandler
    (Fixture.deps (Some Fixture.empty_cache) VUndef Fixture.keep Rejects)
    (Fixture.config true) (Fixture.post Fixture.product_path (VObj []))
    Fixture.product_prepared
  = ([BackendCall {| uri := "http://localhost:9200/myindex/product/_search";
                     req_method := "POST"; req_body := VObj []; auth := VNull |};
      Json VUndef], Done).
Proof.
  apply (no_hit_list_passthrough
           (Fixture.deps (Some Fixture.empty_cache) VUndef Fixture.keep Rejects)
           (Fixture.config true) (Fixture.post Fixture.product_path (VObj []))
           Fixture.product_prepared eq_refl).
Defined.

(** X8. An empty hit list is a hit list: with the output cache on, the
    processor is run on it and its result is written to the cache under
    the entity type as the only tag. *)
Theorem empty_hit_list_is_cached
    (deps : Collaborators) (config : Config) (c : CacheClient)
    (req : Request) (p : Prepared) (adapter : string) (process : Processor)
    (result : value)
    (Hon : outputCache deps config = Some c)
    (Hentity : entityType p <> "")
    (Hempty : hits_of (backend deps (backendCall req p)) = VArr [])
    (Hadapter : resultProcessor deps p = Some (adapter, process))
    (Hresult : process (VArr []) (group_for p) = Resolves result) :
  exists written rest,
    set_hits (backend deps (backendCall req p)) result = Some written /\
    fst (dynamicRequestHandler deps config req p)
    = BackendCall (backendCall req p) :: Process adapter (VArr []) (group_for p) ::
      CacheSet ("api:" ++ reqHash p) written [entityType p] :: rest.
Proof.
  assert (Hhits : truthy (hits_of (backend deps (backendCall req p))) = true)
    by now rewrite Hempty.
  assert (Htags : tagsArray (outputCacheOn deps config) (entityType p)
                    (hits_of (backend deps (backendCall req p))) = Some [entityType p]).
  { unfold outputCacheOn. rewrite Hon, Hempty.
    destruct (entityType p); [contradiction | reflexivity]. }
  destruct (set_hits_shape _ result Hhits) as (fs & hs & _ & _ & Hset).
  rewrite (dynamicRequestHandler_processing deps config req p _ _ _ Hhits Htags Hadapter).
  rewrite Hempty in *. rewrite Hresult. unfold after_process. rewrite Hset.
  rewrite (cacheStorage_on deps config c) by exact Hon.
  eexists. eexists. split; reflexivity.
Qed.

Definition no_hits_answer : value :=
  VObj [("hits", VObj [("total", VNum 0); ("hits", VArr [])])].

Lemma empty_hit_list_is_cached_witness :
  written_tags
    (fst (dynamicRequestHandler
            (Fixture.deps (Some Fixture.empty_cache) no_hits_answer Fixture.keep Rejects)
            (Fixture.config true) (Fixture.post Fixture.product_path (VObj []))
            Fixture.product_prepared))
  = [["product"]].
Proof.
  destruct (empty_hit_list_is_cached
              (Fixture.deps (Some Fixture.empty_cache) no_hits_answer Fixture.keep Rejects)
              (Fixture.config true) Fixture.empty_cache
              (Fixture.post Fixture.product_path (VObj [])) Fixture.product_prepared
              "product" Fixture.keep (VArr [])
              eq_refl
              (fun H : "product" = "" =>
                 eq_ind "product" (fun s => match s with EmptyString => False | _ => True end)
                   I _ H)
              eq_refl eq_refl eq_refl)
    as (written & rest & _ & _).
  reflexivity.
Defined.


Definition category_prepared : Prepared :=
  {| indexName := "myindex"; entityType := "category"; responseFormat := "standard";
     requestBody := VObj []; groupId := VNum 4; reqAuth := VNull;
     elasticBackendUrl := "http://localhost:9200/myindex/category/_search";
     reqHash := "{}/myindex/category/_search" |}.





(** ** What a run never does *)

Definition is_process (e : event) : bool :=
  match e with Process _ _ _ => true | _ => false end.

Definition is_header (e : event) : bool :=
  match e with SetHeader _ _ => true | _ => false end.

Ltac break_matches :=
  repeat match goal with
         | |- context [match ?x with _ => _ end] => destruct x
         end.

(** How many responses, cache writes and lookups follow the processor. *)
Lemma after_process_counts (deps : Collaborators) (config : Config) (p : Prepared)
    (b : value) (tags : list string) (enrich : bool) (r : promise value) :
  (count is_response (after_process deps config p b tags enrich r) <= 1)%nat /\
  (count is_cache_set (after_process deps config p b tags enrich r) <= 1)%nat /\
  (count is_lookup (after_process deps config p b tags enrich r) <= 1)%nat /\
  count is_process (after_process deps config p b tags enrich r) = 0%nat /\
  count is_header (after_process deps config p b tags enrich r) = 0%nat.
Proof.
  assert (Hrespond : forall b',
             (count is_response (respond p b') <= 1)%nat /\
             count is_cache_set (respond p b') = 0%nat /\
             count is_lookup (respond p b') = 0%nat /\
             count is_process (respond p b') = 0%nat /\
             count is_header (respond p b') = 0%nat).
  { intros b'. unfold respond. break_matches; cbn; repeat split; lia. }
  assert (Henrich : forall b',
             (count is_response (enrich_then_respond deps p b') <= 1)%nat /\
             count is_cache_set (enrich_then_respond deps p b') = 0%nat /\
             (count is_lookup (enrich_then_respond deps p b') <= 1)%nat /\
             count is_process (enrich_then_respond deps p b') = 0%nat /\
             count is_header (enrich_then_respond deps p b') = 0%nat).
  { intros b'. unfold enrich_then_respond, getProductsAttributesMetadata.
    destruct (get "aggregations" b') as [a|]; [|cbn; repeat split; lia].
    destruct (truthy a); [|destruct (Hrespond b') as (? & ? & ? & ? & ?); repeat split; lia].
    destruct (attributeListParam b'); [|cbn; repeat split; lia].
    cbn [app].
    destruct (AttributeService_list _ _ _); [|cbn; repeat split; lia].
    destruct (bind _ _) as [b''|]; [|cbn; repeat split; lia].
    destruct (Hrespond b'') as (? & ? & ? & ? & ?).
    change (?x :: respond p b'') with ([x] ++ respond p b'')%list.
    rewrite !count_app. cbn. repeat split; lia. }
  unfold after_process. destruct r as [result|]; [|cbn; repeat split; lia].
  destruct (set_hits b result) as [w|]; [|cbn; repeat split; lia].
  assert (Hstore : (count is_cache_set (_cacheStorageHandler deps config w (reqHash p) tags)
                    <= 1)%nat /\
                   count is_response (_cacheStorageHandler deps config w (reqHash p) tags)
                   = 0%nat /\
                   count is_lookup (_cacheStorageHandler deps config w (reqHash p) tags)
                   = 0%nat /\
                   count is_process (_cacheStorageHandler deps config w (reqHash p) tags)
                   = 0%nat /\
                   count is_header (_cacheStorageHandler deps config w (reqHash p) tags)
                   = 0%nat).
  { unfold _cacheStorageHandler. break_matches; cbn; repeat split; lia. }
  destruct Hstore as (? & ? & ? & ? & ?).
  rewrite !count_app, !settle_write_count by reflexivity.
  destruct enrich;
    [destruct (Henrich w) as (? & ? & ? & ? & ?) | destruct (Hrespond w) as (? & ? & ? & ? & ?)];
    repeat split; lia.
Qed.

Lemma dynamicRequestHandler_counts (deps : Collaborators) (config : Config)
    (req : Request) (p : Prepared) :
  (count is_response (fst (dynamicRequestHandler deps config req p)) <= 1)%nat /\
  (count is_cache_set (fst (dynamicRequestHandler deps config req p))
   <= count is_process (fst (dynamicRequestHandler deps config req p)))%nat /\
  (count is_lookup (fst (dynamicRequestHandler deps config req p))
   <= count is_process (fst (dynamicRequestHandler deps config req p)))%nat /\
  (count is_process (fst (dynamicRequestHandler deps config req p)) <= 1)%nat /\
  count is_header (fst (dynamicRequestHandler deps config req p)) = 0%nat.
Proof.
  unfold dynamicRequestHandler.
  destruct (truthy _); [|cbn; repeat split; lia].
  destruct (tagsArray _ _ _) as [tags|]; [|cbn; repeat split; lia].
  destruct (resultProcessor _ _) as [[adapter process]|]; [|cbn; repeat split; lia].
  destruct (entityType p =? "product"); cbn [fst];
    match goal with
    | |- context [after_process ?d ?c ?p ?b ?t ?e ?r] =>
        destruct (after_process_counts d c p b t e r) as (H1 & H2 & H3 & H4 & H5);
        change (?x :: ?y :: after_process d c p b t e r)
          with ([x; y] ++ after_process d c p b t e r)%list
    end;
    rewrite !count_app; cbn; repeat split; lia.
Qed.

Lemma handler_counts (deps : Collaborators) (config : Config) (req : Request) :
  (count is_response (fst (handler deps config req)) <= 1)%nat /\
  (count is_cache_set (fst (handler deps config req))
   <= count is_process (fst (handler deps config req)))%nat /\
  (count is_lookup (fst (handler deps config req))
   <= count is_process (fst (handler deps config req)))%nat /\
  (count is_process (fst (handler deps config req))
   <= count is_backend_call (fst (handler deps config req)))%nat /\
  (count is_backend_call (fst (handler deps config req)) <= 1)%nat.
Proof.
  unfold handler.
  destruct (prepare deps config req) as [e|p]; [cbn; repeat split; lia|].
  pose proof (dynamicRequestHandler_counts deps config req p) as (H1 & H2 & H3 & H4 & H5).
  pose proof (dynamicRequestHandler_one_call deps config req p) as H6.
  destruct (outputCache deps config) as [c|].
  - destruct (cache_get c _) as [output|]; [|cbn; repeat split; lia].
    destruct (not_null output); [cbn; repeat split; lia|].
    destruct (dynamicRequestHandler deps config req p) as [evs e]. cbn [fst] in *.
    change (?x :: ?y :: ?z :: evs) with ([x; y; z] ++ evs)%list.
    rewrite !count_app. cbn. repeat split; lia.
  - repeat split; lia.
Qed.

(** X11. No request is answered twice: whatever the collaborators do, a
    run of the handler sends at most one response. *)
Theorem at_most_one_response (deps : Collaborators) (config : Config) (req : Request) :
  (count is_response (fst (handler deps config req)) <= 1)%nat.
Proof. exact (proj1 (handler_counts deps config req)). Qed.

(** X12. In every run the backend is called at most once, a processor runs
    only after a backend call, and a cache write or an attribute lookup
    happens only in a run in which a processor has run: there is at most
    one of each. *)
Theorem effects_follow_backend_call
    (deps : Collaborators) (config : Config) (req : Request) :
  (count is_cache_set (fst (handler deps config req))
   <= count is_process (fst (handler deps config req)))%nat /\
  (count is_lookup (fst (handler deps config req))
   <= count is_process (fst (handler deps config req)))%nat /\
  (count is_process (fst (handler deps config req))
   <= count is_backend_call (fst (handler deps config req)))%nat /\
  (count is_backend_call (fst (handler deps config req)) <= 1)%nat.
Proof. exact (proj2 (handler_counts deps config req)). Qed.

(** The event, if it is a cache access, is on the key [k]. *)
Definition on_key (k : string) (e : event) : Prop :=
  match e with
  | CacheGet k' | CacheSet k' _ _ => k' = k
  | _ => True
  end.

Lemma after_process_on_key (deps : Collaborators) (config : Config) (p : Prepared)
    (b : value) (tags : list string) (enrich : bool) (r : promise value) :
  Forall (on_key ("api:" ++ reqHash p)) (after_process deps config p b tags enrich r).
Proof.
  unfold after_process. destruct r as [result|]; [|repeat constructor].
  destruct (set_hits b result) as [w|]; [|repeat constructor].
  apply Forall_app. split.
  - unfold _cacheStorageHandler. break_matches; repeat constructor.
  - assert (H : Forall (fun e => is_cache_access e = false)
                  (if enrich then enrich_then_respond deps p w else respond p w))
      by (destruct enrich; [apply enrich_no_cache | apply respond_no_cache]).
    apply settle_write_Forall; [exact I|].
    revert H. apply Forall_impl. intros []; cbn; congruence || auto.
Qed.

(** X13. Every cache access of a run is made on the one key ["api:"]
    followed by the fingerprint of the request: what a miss writes is
    written under the key that was read. *)
Theorem cache_accesses_on_request_key
    (deps : Collaborators) (config : Config) (req : Request) (p : Prepared)
    (Hp : prepare deps config req = inr p) :
  Forall (on_key ("api:" ++ reqHash p)) (fst (handler deps config req)).
Proof.
  assert (Hrun : Forall (on_key ("api:" ++ reqHash p))
                   (fst (dynamicRequestHandler deps config req p))).
  { unfold dynamicRequestHandler.
    destruct (truthy _); [|repeat constructor].
    destruct (tagsArray _ _ _) as [tags|]; [|repeat constructor].
    destruct (resultProcessor _ _) as [[adapter process]|]; [|repeat constructor].
    destruct (entityType p =? "product"); cbn [fst];
      repeat (constructor; [exact I|]); apply after_process_on_key. }
  unfold handler. rewrite Hp.
  destruct (outputCache deps config) as [c|]; [|exact Hrun].
  destruct (cache_get c _) as [output|]; [|repeat constructor].
  destruct (not_null output); [repeat constructor|].
  destruct (dynamicRequestHandler deps config req p) as [evs e]. cbn [fst] in *.
  repeat (constructor; [exact I || reflexivity|]). exact Hrun.
Qed.

Lemma cache_accesses_on_request_key_witness :
  Forall (on_key "api:{}/myindex/product/_search")
    (fst (handler (Fixture.deps (Some Fixture.empty_cache) Fixture.answer Fixture.keep
                     (Resolves (VArr [])))
                  (Fixture.config true) (Fixture.post Fixture.product_path (VObj [])))).
Proof.
  apply (cache_accesses_on_request_key
           (Fixture.deps (Some Fixture.empty_cache) Fixture.answer Fixture.keep
              (Resolves (VArr [])))
           (Fixture.config true) (Fixture.post Fixture.product_path (VObj []))
           Fixture.product_prepared eq_refl).
Defined.

(** X14. With the output cache off (disabled in the configuration, or no
    cache client), no run reads or writes the cache, and no run sets the
    [X-VS-Cache] header. *)
Theorem cache_off_is_silent
    (deps : Collaborators) (config : Config) (req : Request)
    (Hoff : outputCache deps config = None) :
  count is_cache_access (fst (handler deps config req)) = 0%nat /\
  count is_header (fst (handler deps config req)) = 0%nat.
Proof.
  unfold handler. rewrite Hoff.
  destruct (prepare deps config req) as [e|p]; [split; reflexivity|].
  split.
  - now apply dynamicRequestHandler_no_cache.
  - apply (dynamicRequestHandler_counts deps config req p).
Qed.

Lemma cache_off_is_silent_witness :
  count is_cache_access
    (fst (handler (Fixture.deps (Some Fixture.empty_cache) Fixture.answer Fixture.keep Rejects)
                  (Fixture.config false) (Fixture.post Fixture.product_path (VObj []))))
  = 0%nat.
Proof.
  apply (cache_off_is_silent
           (Fixture.deps (Some Fixture.empty_cache) Fixture.answer Fixture.keep Rejects)
           (Fixture.config false) (Fixture.post Fixture.product_path (VObj [])) eq_refl).
Defined.

(** X15. The attribute service is asked only for product requests whose
    backend answer has truthy aggregations: a request for any other entity
    type, and a product request whose answer has none, make no lookup. *)
Theorem lookup_only_for_product_aggregations
    (deps : Collaborators) (config : Config) (req : Request) (p : Prepared)
    (Hnot : entityType p <> "product" \/
            truthy (or_undef (get "aggregations" (backend deps (backendCall req p)))) = false) :
  count is_lookup (fst (dynamicRequestHandler deps config req p)) = 0%nat.
Proof.
  assert (Hrespond : forall b, count is_lookup (respond p b) = 0%nat).
  { intros b. unfold respond. now destruct (_outputFormatter _ _). }
  assert (Hstore : forall b h tags,
             count is_lookup (_cacheStorageHandler deps config b h tags) = 0%nat).
  { intros b h tags. unfold _cacheStorageHandler. break_matches; reflexivity. }
  unfold dynamicRequestHandler.
  destruct (truthy (hits_of (backend deps (backendCall req p)))) eqn:Hhits; [|reflexivity].
  destruct (tagsArray _ _ _) as [tags|]; [|reflexivity].
  destruct (resultProcessor _ _) as [[adapter process]|]; [|reflexivity].
  destruct (String.eqb_spec (entityType p) "product") as [Hproduct | Hother]; cbn [fst];
    change (?x :: ?y :: ?t) with ([x; y] ++ t)%list; rewrite count_app; cbn [count filter
      is_lookup List.length app Nat.add]; unfold after_process.
  - destruct Hnot as [Hnot | Hnone]; [contradiction|].
    destruct (process _ _) as [result|]; [|reflexivity].
    destruct (set_hits _ result) as [w|] eqn:Hset; [|reflexivity].
    rewrite count_app, Hstore, settle_write_count by reflexivity.
    destruct (set_hits_aggregations _ _ _ Hhits Hset) as [Haggs _].
    unfold enrich_then_respond. rewrite Haggs.
    destruct (get "aggregations" (backend deps (backendCall req p))) as [a|]; [|reflexivity].
    cbn in Hnone. rewrite Hnone. apply Hrespond.
  - destruct (process _ _) as [result|]; [|reflexivity].
    destruct (set_hits _ result) as [w|]; [|reflexivity].
    rewrite count_app, Hstore, settle_write_count by reflexivity. apply Hrespond.
Qed.

Lemma lookup_only_for_product_aggregations_witness :
  count is_lookup
    (fst (dynamicRequestHandler (Fixture.deps None Fixture.answer Fixture.keep Rejects)
            (Fixture.config false) (Fixture.post "/myindex/category/_search" (VObj []))
            category_prepared))
  = 0%nat.
Proof.
  apply (lookup_only_for_product_aggregations
           (Fixture.deps None Fixture.answer Fixture.keep Rejects)
           (Fixture.config false) (Fixture.post "/myindex/category/_search" (VObj []))
           category_prepared).
  left. discriminate.
Defined.

(** ** Enrichment and formatting in a run *)



(** X17. Compact formatting touches five fields only: whatever else the
    response object holds (aggregations, attribute metadata, ...) is in
    the formatted object with the value it had. *)
Theorem compact_keeps_other_fields
    (fields out : list (string * value)) (k : string)
    (Hformatted : _outputFormatter (VObj fields) "compact" = Some (VObj out))
    (Hk : ~ In k ["took"; "timed_out"; "_shards"; "total"; "hits"]) :
  assoc k out = assoc k fields.
Proof.
  assert (Hne : k <> "took" /\ k <> "timed_out" /\ k <> "_shards" /\
                k <> "total" /\ k <> "hits").
  { cbn in Hk. repeat split; intros ->; tauto. }
  destruct Hne as (H1 & H2 & H3 & H4 & H5).
  revert Hformatted. unfold _outputFormatter. simpl.
  set (stripped := remove_key "_shards" (remove_key "timed_out" (remove_key "took" fields))).
  assert (Hs : assoc k stripped = assoc k fields).
  { unfold stripped. now rewrite !assoc_remove_other by assumption. }
  destruct (truthy (or_undef (assoc "hits" stripped))).
  - destruct (delete "max_score" _) as [h|]; simpl; [|discriminate].
    destruct (get "total" h) as [total|]; simpl; [|discriminate].
    destruct (get "hits" h) as [hh|]; simpl; [|discriminate].
    destruct (as_array hh) as [items|]; simpl; [|discriminate].
    destruct (map_opt _ items) as [flat|]; simpl; [|discriminate].
    intros H. inversion H. now rewrite !assoc_update_other by assumption.
  - intros H. inversion H. subst out. exact Hs.
Qed.

Lemma compact_keeps_other_fields_witness :
  exists out,
    _outputFormatter Fixture.answer "compact" = Some (VObj out) /\
    assoc "aggregations" out
    = Some (VObj [("agg_terms_color", VObj [("buckets", VArr [VObj [("key", VStr "red")]])])]).
Proof.
  eexists. split; [reflexivity|].
  rewrite (compact_keeps_other_fields
             [("took", VNum 3);
              ("hits", VObj [("total", VNum 1);
                             ("hits", VArr [VObj [("_score", VNum 1);
                                                  ("_source", VObj [("id", VStr "7")])]])]);
              ("aggregations",
               VObj [("agg_terms_color",
                      VObj [("buckets", VArr [VObj [("key", VStr "red")]])])])]
             _ "aggregations" eq_refl).
  - reflexivity.
  - cbn. intuition discriminate.
Defined.

(** ** Edge cases of tags and attribute codes *)

Lemma map_opt_fails {A B : Type} (f : A -> option B) (l : list A) (x : A) :
  In x l -> f x = None -> map_opt f l = None.
Proof.
  induction l as [|y l IH]; simpl; [tauto|].
  intros [-> | Hin] Hx.
  - now rewrite Hx.
  - destruct (f y); simpl; [|reflexivity]. now rewrite IH.
Qed.

Lemma filter_opt_fails {A : Type} (f : A -> option bool) (l : list A) (x : A) :
  In x l -> f x = None -> filter_opt f l = None.
Proof.
  induction l as [|y l IH]; simpl; [tauto|].
  intros [-> | Hin] Hx.
  - now rewrite Hx.
  - destruct (f y); simpl; [|reflexivity]. now rewrite IH.
Qed.

(** X18. An aggregation whose [buckets.length] cannot be read (no
    [buckets], or [null] in its place) makes the construction of the
    lookup argument throw, whatever the other aggregations are; in a run
    the failure is logged, the attribute service is not asked and no
    response is sent. *)
Theorem aggregation_without_buckets_throws
    (deps : Collaborators) (p : Prepared)
    (body : value) (fields : list (string * value)) (name : string) (agg : value)
    (Haggs : get "aggregations" body = Some (VObj fields))
    (Hname : assoc name fields = Some agg)
    (Hbuckets : (b <- get "buckets" agg ;; get "length" b) = None) :
  attributeListParam body = None /\
  enrich_then_respond deps p body = [ConsoleError].
Proof.
  assert (Hparam : attributeListParam body = None).
  { unfold attributeListParam. rewrite Haggs. simpl.
    rewrite (filter_opt_fails _ (map fst fields) name); [reflexivity | |].
    - apply assoc_In in Hname. now apply (in_map fst) in Hname.
    - unfold buckets_of. simpl. rewrite Hname. simpl.
      destruct (get "buckets" agg) as [b|]; simpl in *; [|reflexivity].
      now rewrite Hbuckets. }
  split; [exact Hparam|].
  unfold enrich_then_respond, getProductsAttributesMetadata.
  now rewrite Haggs, Hparam.
Qed.

Lemma aggregation_without_buckets_throws_witness :
  attributeListParam
    (VObj [("aggregations",
            VObj [("agg_terms_color", VObj [("buckets", VArr [VObj [("key", VStr "red")]])]);
                  ("agg_price_stats", VObj [("min", VNum 1); ("max", VNum 9)])])])
  = None.
Proof.
  apply (aggregation_without_buckets_throws
           (Fixture.deps None Fixture.answer Fixture.keep Rejects) Fixture.product_prepared
           (VObj [("aggregations",
                   VObj [("agg_terms_color",
                          VObj [("buckets", VArr [VObj [("key", VStr "red")]])]);
                         ("agg_price_stats", VObj [("min", VNum 1); ("max", VNum 9)])])])
           [("agg_terms_color", VObj [("buckets", VArr [VObj [("key", VStr "red")]])]);
            ("agg_price_stats", VObj [("min", VNum 1); ("max", VNum 9)])]
           "agg_price_stats" (VObj [("min", VNum 1); ("max", VNum 9)])
           eq_refl eq_refl eq_refl).
Defined.

(** X19. With the output cache on, a hit that is [null] or has no
    [_source] makes the construction of the tags throw inside the backend
    callback: the run stops after the backend call, without a response.
    With the output cache off the hits are not looked at. *)
Theorem hit_without_source_escapes
    (deps : Collaborators) (config : Config) (req : Request) (p : Prepared)
    (items : list value) (hit : value)
    (Hlist : hits_of (backend deps (backendCall req p)) = VArr items)
    (Hin : In hit items)
    (Hsource : (src <- get "_source" hit ;; get "id" src) = None) :
  (outputCacheOn deps config = true ->
   dynamicRequestHandler deps config req p = ([BackendCall (backendCall req p)], Uncaught)) /\
  (outputCacheOn deps config = false ->
   tagsArray (outputCacheOn deps config) (entityType p)
     (hits_of (backend deps (backendCall req p))) = Some []).
Proof.
  split; intros Hcache; [|now rewrite Hcache].
  unfold dynamicRequestHandler. rewrite Hlist, Hcache. cbn [truthy].
  assert (Htags : tagsArray true (entityType p) (VArr items) = None).
  { unfold tagsArray. destruct (first_upper (entityType p)); [|reflexivity].
    cbn [bind as_array]. now rewrite (map_opt_fails _ items hit Hin Hsource). }
  now rewrite Htags.
Qed.

Definition sourceless_answer : value :=
  VObj [("hits", VObj [("total", VNum 1);
                       ("hits", VArr [VObj [("_id", VStr "a"); ("_score", VNum 1)]])])].

Lemma hit_without_source_escapes_witness :
  dynamicRequestHandler
    (Fixture.deps (Some Fixture.empty_cache) sourceless_answer Fixture.keep Rejects)
    (Fixture.config true) (Fixture.post Fixture.product_path (VObj []))
    Fixture.product_prepared
  = ([BackendCall {| uri := "http://localhost:9200/myindex/product/_search";
                     req_method := "POST"; req_body := VObj []; auth := VNull |}],
     Uncaught).
Proof.
  apply (proj1 (hit_without_source_escapes
                  (Fixture.deps (Some Fixture.empty_cache) sourceless_answer Fixture.keep Rejects)
                  (Fixture.config true) (Fixture.post Fixture.product_path (VObj []))
                  Fixture.product_prepared
                  [VObj [("_id", VStr "a"); ("_score", VNum 1)]]
                  (VObj [("_id", VStr "a"); ("_score", VNum 1)])
                  eq_refl (or_introl eq_refl) eq_refl)
           eq_refl).
Defined.

(** *** The order of the merged identifiers *)











(** X21. When no aggregation has a bucket (an empty aggregations object
    included), the lookup argument is empty, and the attribute service is
    asked all the same. *)
Theorem empty_aggregations_still_looked_up
    (deps : Collaborators) (p : Prepared)
    (body : value) (fields : list (string * value)) (aggs : list (string * list value))
    (Haggs : get "aggregations" body = Some (VObj fields))
    (Hkeys : NoDup (map fst fields))
    (Hview : aggregations_view fields aggs)
    (Hempty : Forall (fun a => snd a = []) aggs) :
  attributeListParam body = Some [] /\
  exists rest, enrich_then_respond deps p body = AttributeList [] (indexName p) :: rest.
Proof.
  assert (Hby := view_by_key fields fields aggs
                   (fun f Hf => In_assoc (fst f) (snd f) fields Hkeys
                                  (eq_ind _ (fun x => In x fields) Hf _ (surjective_pairing f)))
                   Hview).
  destruct (filter_by_key fields _ _ Hby) as [Hfilter Hkept].
  assert (Hnone : filter nonempty aggs = []).
  { clear - Hempty. induction Hempty as [|a aggs Ha _ IH]; simpl; [reflexivity|].
    unfold nonempty at 1. now rewrite Ha. }
  rewrite Hnone in *.
  assert (Hparam : attributeListParam body = Some []).
  { unfold attributeListParam. rewrite Haggs. simpl. rewrite Hfilter. reflexivity. }
  split; [exact Hparam|].
  unfold enrich_then_respond, getProductsAttributesMetadata.
  rewrite Haggs, Hparam. cbn [truthy app]. eexists. reflexivity.
Qed.

Lemma empty_aggregations_still_looked_up_witness :
  attributeListParam (VObj [("aggregations", VObj [])]) = Some [].
Proof.
  apply (empty_aggregations_still_looked_up
           (Fixture.deps None Fixture.answer Fixture.keep Rejects) Fixture.product_prepared
           (VObj [("aggregations", VObj [])]) [] [] eq_refl (NoDup_nil _)
           (Forall2_nil _) (Forall_nil _)).
Defined.

(** ** The group of a request *)

(** X22. A [groupToken] string of more than ten characters is decoded and
    decides the group: the [group_id] of the decoded token if truthy, and
    [null] otherwise, whatever [groupId] the body has; if it does not
    decode, the request is refused. A token of ten characters or fewer is
    not decoded at all, valid or not: the group is then the [groupId] of
    the body if truthy, and [null] otherwise. *)
Theorem group_resolution
    (deps : Collaborators) (config : Config)
    (fields : list (string * value)) (token : string)
    (Htoken : assoc "groupToken" fields = Some (VStr token)) :
  ((10 < String.length token)%nat ->
   forall decoded group_id,
     jwt_decode deps (VStr token)
       (if truthy (authHashSecret config) then authHashSecret config
        else objHashSecret config) = Some decoded ->
     get "group_id" decoded = Some group_id ->
     group_of deps config (VObj fields) = inr (or_else group_id VNull)) /\
  ((10 < String.length token)%nat ->
   jwt_decode deps (VStr token)
     (if truthy (authHashSecret config) then authHashSecret config
      else objHashSecret config) = None ->
   group_of deps config (VObj fields) = inl External) /\
  ((String.length token <= 10)%nat ->
   group_of deps config (VObj fields)
   = inr (or_else (or_undef (assoc "groupId" fields)) VNull)).
Proof.
  unfold group_of. cbn [get or_throw bind_result]. rewrite Htoken. cbn [or_undef].
  split; [|split].
  - intros Hlen decoded group_id Hjwt Hgroup.
    rewrite (truthy_long_token token) by lia. rewrite Hjwt. cbn [or_throw bind_result].
    now rewrite Hgroup.
  - intros Hlen Hjwt.
    rewrite (truthy_long_token token) by lia. now rewrite Hjwt.
  - intros Hlen.
    assert (Hshort : gt10 (or_undef (get "length" (VStr token))) = false).
    { cbn. apply Z.ltb_ge. lia. }
    rewrite Hshort, Bool.andb_false_r.
    unfold or_else. now destruct (truthy (or_undef (assoc "groupId" fields))).
Qed.

Lemma group_resolution_witness :
  group_of (Fixture.deps None Fixture.answer Fixture.keep Rejects) (Fixture.config false)
    (VObj [("groupToken", VStr "aaaaaaaaaa"); ("groupId", VNum 4)])
  = inr (VNum 4).
Proof.
  apply (proj2 (proj2 (group_resolution
                         (Fixture.deps None Fixture.answer Fixture.keep Rejects)
                         (Fixture.config false)
                         [("groupToken", VStr "aaaaaaaaaa"); ("groupId", VNum 4)]
                         "aaaaaaaaaa" eq_refl))).
  cbn. lia.
Defined.



(** ** What the backend is sent *)





